(** * Deployer: store-code and instantiate (src/deployer.ts)

    A shallow embedding of [Deployer.storeCode] and [Deployer.instantiate].
    The two methods are sequential programs over a mutable reference store,
    the process working directory and a handful of external collaborators
    (spinner, signer, ledger client, block-inclusion waiter).  They are
    embedded as computations of a state-and-exception monad; every call to a
    collaborator is recorded in a trace so that statements such as "no
    broadcast happens" can be read off the final state.

    Both methods are [async]; each [await] is read as sequencing, that is, a
    call runs from its first statement to its return or throw without any
    other task of the process touching the store or the working directory
    in between. *)

From Stdlib Require Import PrimFloat Ascii ZArith Bool.
From stdpp Require Import gmap strings list fin_maps pretty.

Local Open Scope Z_scope.
Local Set Warnings "-register-all".

(** ** JavaScript values *)

(** The values [JSON.parse] can produce, plus [undefined], which property
    reads produce.  A number stands for an integer-valued one (the logs of
    the ledger carry their numbers as strings; numbers with a fraction are
    outside the model).  An object keeps its members in source order; a
    later duplicate key shadows an earlier one, see [own_property]. *)
Inductive value : Type :=
| VUndefined
| VNull
| VBool (b : bool)
| VNum (n : Z)
| VStr (s : string)
| VArr (elems : list value)
| VObj (members : list (string * value)).

(** ToBoolean. *)
Definition truthy (v : value) : bool :=
  match v with
  | VUndefined | VNull => false
  | VBool b => b
  | VNum n => negb (n =? 0)
  | VStr s => negb (String.eqb s EmptyString)
  | VArr _ | VObj _ => true
  end.

(** ToString, as applied by template literals. *)
Fixpoint to_display (v : value) : string :=
  match v with
  | VUndefined => "undefined"
  | VNull => "null"
  | VBool true => "true"
  | VBool false => "false"
  | VNum n => pretty n
  | VStr s => s
  | VArr elems =>
      String.concat ","
        (map (fun e => match e with
                       | VUndefined | VNull => EmptyString
                       | _ => to_display e
                       end) elems)
  | VObj _ => "[object Object]"
  end.

(** ** Numbers handed in by a caller *)

(** A parameter of type [number] (a code id to migrate, an account
    sequence) holds a JavaScript number, that is, an IEEE 754 double with
    its two zeros, its infinities and NaN: a [float].  ToBoolean of a number
    is false for [+0], [-0] and [NaN], and true for every other one. *)
Definition number_truthy (n : float) : bool := negb (is_zero n || is_nan n).

(** ** Exceptions *)

Inductive error_class := ClsError | ClsSyntaxError | ClsTypeError.

Record js_error := mk_error { err_class : error_class; err_message : string }.

Definition Error (m : string) : js_error := mk_error ClsError m.
Definition SyntaxError (m : string) : js_error := mk_error ClsSyntaxError m.
Definition TypeError (m : string) : js_error := mk_error ClsTypeError m.

(** [e instanceof SyntaxError] *)
Definition instanceof_SyntaxError (e : js_error) : bool :=
  match err_class e with ClsSyntaxError => true | _ => false end.

Definition class_name (c : error_class) : string :=
  match c with
  | ClsError => "Error"
  | ClsSyntaxError => "SyntaxError"
  | ClsTypeError => "TypeError"
  end.

(** [Error.prototype.toString], as applied by [`${e}`]. *)
Definition error_to_string (e : js_error) : string :=
  if String.eqb (err_message e) EmptyString then class_name (err_class e)
  else class_name (err_class e) +:+ ": " +:+ err_message e.

(** The result of evaluating an expression: a value or a thrown exception. *)
Inductive outcome (A : Type) : Type :=
| Return (a : A)
| Throw (e : js_error).
Arguments Return {A} a.
Arguments Throw {A} e.

Definition obind {A B} (o : outcome A) (k : A -> outcome B) : outcome B :=
  match o with
  | Return a => k a
  | Throw e => Throw e
  end.

(** ** The language runtime *)

(** What went wrong in a property read or a call. *)
Inductive fault :=
| ReadOfNullish (base : value) (prop : string)
| NotAFunction (callee : string).

(** [JSON.parse] and the wording of the engine's TypeErrors belong to the
    JavaScript engine, not to the repository; they are parameters of the
    development.  [JSON_parse s = inl m] stands for a [SyntaxError] with
    message [m].  The empty text is not JSON. *)
Record Runtime := {
  JSON_parse : string -> string + value;
  type_error_message : fault -> string;
  JSON_parse_empty : exists m, JSON_parse EmptyString = inl m;
}.

(** The property names the two methods read from parsed logs.  None of them
    is a member of a built-in prototype, so on anything but an object with
    such a member of its own the read gives [undefined]. *)
Inductive field := f_events | f_type | f_attributes | f_key | f_value.

Definition field_name (f : field) : string :=
  match f with
  | f_events => "events"
  | f_type => "type"
  | f_attributes => "attributes"
  | f_key => "key"
  | f_value => "value"
  end.

(** The own property [k] of an object literal read by [JSON.parse]: the last
    member with that key. *)
Fixpoint own_property (members : list (string * value)) (k : string) : option value :=
  match members with
  | [] => None
  | (k', v) :: rest =>
      match own_property rest k with
      | Some w => Some w
      | None => if String.eqb k' k then Some v else None
      end
  end.

Section Access.
Variable rt : Runtime.

Definition throw_type_error {A} (f : fault) : outcome A :=
  Throw (TypeError (type_error_message rt f)).

(** [v.f] *)
Definition get_field (v : value) (f : field) : outcome value :=
  match v with
  | VUndefined | VNull => throw_type_error (ReadOfNullish v (field_name f))
  | VObj members => Return (default VUndefined (own_property members (field_name f)))
  | VBool _ | VNum _ | VStr _ | VArr _ => Return VUndefined
  end.

(** [v[0]] *)
Definition index0 (v : value) : outcome value :=
  match v with
  | VUndefined | VNull => throw_type_error (ReadOfNullish v "0")
  | VArr elems => Return (default VUndefined (head elems))
  | VObj members => Return (default VUndefined (own_property members "0"))
  | VStr (String c _) => Return (VStr (String c EmptyString))
  | VStr EmptyString | VBool _ | VNum _ => Return VUndefined
  end.

(** [Array.prototype.find] with the callback [(x) => x.f === s]. *)
Fixpoint find_by (f : field) (s : string) (elems : list value) : outcome value :=
  match elems with
  | [] => Return VUndefined
  | x :: rest =>
      match get_field x f with
      | Throw e => Throw e
      | Return (VStr t) => if String.eqb t s then Return x else find_by f s rest
      | Return _ => find_by f s rest
      end
  end.

(** [v.find((x) => x.f === s)]; [callee] is the source text of [v.find],
    which the engine quotes when [v.find] is not callable.  Only arrays
    have a callable [find]. *)
Definition call_find (callee : string) (v : value) (f : field) (s : string)
  : outcome value :=
  match v with
  | VUndefined | VNull => throw_type_error (ReadOfNullish v "find")
  | VArr elems => find_by f s elems
  | VBool _ | VNum _ | VStr _ | VObj _ => throw_type_error (NotAFunction callee)
  end.
End Access.

(** ** Collaborators *)

(** A spinner object of the [ora] package; [ora "dots"] is the one built by
    [ora({ spinner: "dots" })]. *)
Inductive Ora := ora (spinner_name : string) | ora_instance (id : nat).

(** An argument of a call: left out, passed as [undefined], or passed. *)
Inductive argument (A : Type) : Type :=
| omitted
| passed_undefined
| passed (a : A).
Arguments omitted {A}.
Arguments passed_undefined {A}.
Arguments passed {A} a.

(** A parameter [p: A | undefined = d]: the initialiser is evaluated when the
    argument is left out or is [undefined].  The bound variable has type
    [A | undefined]. *)
Definition default_param {A} (d : A) (a : argument A) : option A :=
  match a with
  | omitted | passed_undefined => Some d
  | passed x => Some x
  end.

(** The ledger messages of terra.js built by the two methods.  The code id
    of [MsgMigrateCode] is the number the caller handed in; the code id of
    [MsgInstantiateContract] is the result of [parseInt]: [None] is NaN. *)
Inductive Msg :=
| MsgStoreCode (sender wasm_byte_code : string)
| MsgMigrateCode (sender : string) (code_id : float) (wasm_byte_code : string)
| MsgInstantiateContract (sender : string) (admin : option string)
    (code_id : option Z) (init_msg : value) (init_coins : option string)
    (label : string).

Record CreateTxOptions := {
  opt_sequence : option float;
  opt_msgs : list Msg;
  opt_feeDenoms : option (list string);
}.

(** A signed transaction, opaque to the deployer. *)
Record Tx := { tx_bytes : string }.

(** [SyncTxBroadcastResult]: terra.js sets [code] only when the node
    answered with a non-zero code. *)
Record SyncTxBroadcastResult := {
  br_height : Z;
  br_txhash : string;
  br_raw_log : string;
  br_code : option Z;
  br_codespace : option string;
}.

(** ["code" in result] *)
Definition has_code (r : SyncTxBroadcastResult) : bool :=
  match br_code r with Some _ => true | None => false end.

Record TxInfo := {
  ti_height : Z;
  ti_txhash : string;
  ti_raw_log : string;
}.

Record InstantiateContractOptions := {
  sequence : option float;
  admin : option string;
  coins : option string;
  label : option string;
}.

Record BuildInfo := { src : string }.

(** The configuration: the entries of [config.contracts] by contract name,
    [config.refs.base_path] and [config.refs.copy_refs_to]. *)

Record Config := {
  contracts : gmap string BuildInfo;
  refs_base_path : string;
  refs_copy_refs_to : list string;
}.

(** [config.contracts] is an ordinary object, so [config.contracts[name]]
    reads through [Object.prototype]: for a name the configuration has no
    entry for, the read gives [undefined] unless the name is one of the
    members of [Object.prototype], for which it gives that member, a
    built-in function (for [__proto__] the prototype itself).  Such a
    member is truthy and has no [src]. *)
Definition Object_prototype_names : list string :=
  ["constructor"; "__defineGetter__"; "__defineSetter__"; "hasOwnProperty";
   "__lookupGetter__"; "__lookupSetter__"; "isPrototypeOf";
   "propertyIsEnumerable"; "toString"; "valueOf"; "__proto__";
   "toLocaleString"].

Definition inherited (name : string) : bool :=
  existsb (String.eqb name) Object_prototype_names.

(** Everything outside the deployer that answers it: the host process, the
    file system, the signer with its ledger client, and
    [waitForInclusionInBlock] of utils.ts, which is not part of the sources
    at hand and is taken as a parameter: it answers a transaction hash with
    the included transaction, with [undefined] (the deployer tests for it),
    or by throwing.  Each answer is a function of the request alone; a
    method asks each collaborator at most once per request.  [path.join]
    joins strings; handed [undefined] for one of them it throws a
    [TypeError], whose message is [path_undefined_message]. *)
Record World := {
  process_arch : string;
  path_join : list string -> string;
  path_undefined_message : string;
  chdir_result : string -> option js_error;
  existsSync : string -> bool;
  readFileSync_base64 : string -> outcome string;
  accAddress : string;
  signer_sequence : outcome float;
  createAndSignTx : CreateTxOptions -> outcome Tx;
  broadcastSync : Tx -> outcome SyncTxBroadcastResult;
  waitForInclusionInBlock : string -> outcome (option TxInfo);
}.

(** ** The reference store *)

(** Modelled from the spec: what the store holds for one contract on one
    network, the code id of a CodeRecord and the address of an
    AddressRecord, each [undefined] until it is set.  The setters are handed
    whatever was read from the log, so both are values. *)
Record RefEntry := { codeId : value; address : value }.

Module Refs.
(** Modelled from the spec: refs.ts (class [Refs]) is not part of the
    sources at hand.  The snapshot maps a network and a contract name to a
    code id and an address. *)
Abbreviation t := (gmap string (gmap string RefEntry)).

(** Modelled from the spec: what is recorded for a contract; [undefined]
    twice when nothing is. *)
Definition entry (r : t) (network contract : string) : RefEntry :=
  default {| codeId := VUndefined; address := VUndefined |}
          (r !! network ≫= (.!! contract)).

(** Modelled from the spec: [getCodeId(network, contract)] answers the code
    id or absent. *)
Definition getCodeId (r : t) (network contract : string) : value :=
  codeId (entry r network contract).


(** Modelled from the spec: writing one entry keeps every other network and
    contract. *)
Definition set_entry (network contract : string) (e : RefEntry) (r : t) : t :=
  <[network := <[contract := e]> (default ∅ (r !! network))]> r.

(** Modelled from the spec: [setCodeId] overwrites the code id and keeps the
    address. *)
Definition setCodeId (network contract : string) (v : value) (r : t) : t :=
  set_entry network contract
    {| codeId := v; address := address (entry r network contract) |} r.

(** Modelled from the spec: [setAddress] overwrites the address and keeps
    the code id. *)
Definition setAddress (network contract : string) (v : value) (r : t) : t :=
  set_entry network contract
    {| codeId := codeId (entry r network contract); address := v |} r.

(** Modelled from the spec: [saveRefs(basePath, copyTargets)] writes the
    whole snapshot to the primary path and the same to every mirror path. *)
Definition saveRefs (base_path : string) (copy_refs_to : list string) (r : t)
    (files : gmap string t) : gmap string t :=
  foldr (fun p fs => <[p := r]> fs) (<[base_path := r]> files) copy_refs_to.
End Refs.

(** ** Effects *)

(** Calls on collaborators, in the order they happen (see [trace]). *)
Inductive event :=
| SpinnerStart (sp : Ora) (text : string)
| SpinnerSucceed (sp : Ora) (text : option string)
| SpinnerFail (sp : Ora) (text : option string)
| SignerSequence
| CreateAndSignTx (options : CreateTxOptions)
| BroadcastSync (tx : Tx)
| WaitForInclusionInBlock (txhash : string)
| SetCodeId (network contract : string) (v : value)
| SetAddress (network contract : string) (v : value)
| SaveRefs (base_path : string) (copy_refs_to : list string).

(** The mutable state a method runs in.  [trace] lists the events newest
    first. *)
Record state := {
  cwd : string;
  refs : gmap string (gmap string RefEntry);
  files : gmap string (gmap string (gmap string RefEntry));
  trace : list event;
}.

Definition M (A : Type) : Type := state -> outcome A * state.

Definition ret {A} (a : A) : M A := fun st => (Return a, st).
Definition throw {A} (e : js_error) : M A := fun st => (Throw e, st).
Definition bind {A B} (m : M A) (k : A -> M B) : M B :=
  fun st =>
    match m st with
    | (Return a, st') => k a st'
    | (Throw e, st') => (Throw e, st')
    end.
Definition lift {A} (o : outcome A) : M A := fun st => (o, st).

(** [try { m } catch (e) { handler e }]: what [m] did before it threw stays
    done. *)
Definition try_catch {A} (m : M A) (handler : js_error -> M A) : M A :=
  fun st =>
    match m st with
    | (Return a, st') => (Return a, st')
    | (Throw e, st') => handler e st'
    end.

Declare Scope js_scope.
Delimit Scope js_scope with js.
Notation "x <- m ;; k" := (bind m (fun x => k))
  (at level 100, m at next level, right associativity) : js_scope.
Notation "m ;; k" := (bind m (fun _ => k))
  (at level 100, right associativity) : js_scope.
Local Open Scope js_scope.

Definition emit (e : event) : M unit :=
  fun st => (Return tt, {| cwd := cwd st; refs := refs st; files := files st;
                           trace := e :: trace st |}).

(** ** String helpers *)

(** The line feed written [\n] in the source's template literals. *)
Definition LF : string := String "010"%char EmptyString.

(** The double quote. *)
Definition DQUOTE : string := String "034"%char EmptyString.

(** [s.replace(/-/g, "_")] *)
Fixpoint replace_dashes (s : string) : string :=
  match s with
  | EmptyString => EmptyString
  | String c rest =>
      String (if Ascii.eqb c "-" then "_"%char else c) (replace_dashes rest)
  end.

Definition digit_value (c : ascii) : option Z :=
  let n := Z.of_N (N_of_ascii c) in
  if (48 <=? n) && (n <=? 57) then Some (n - 48) else None.

Fixpoint leading_digits (acc : option Z) (s : string) : option Z :=
  match s with
  | EmptyString => acc
  | String c rest =>
      match digit_value c with
      | Some d => leading_digits (Some (10 * default 0 acc + d)) rest
      | None => acc
      end
  end.

Definition is_space (c : ascii) : bool :=
  let n := N_of_ascii c in
  ((9 <=? n) && (n <=? 13))%N || (n =? 32)%N.

Fixpoint skip_spaces (s : string) : string :=
  match s with
  | String c rest => if is_space c then skip_spaces rest else s
  | EmptyString => s
  end.

(** [parseInt(s, 10)]: the longest decimal prefix after blanks and a sign;
    [None] is NaN. *)
Definition parseInt10 (s : string) : option Z :=
  match skip_spaces s with
  | String "-" rest => Z.opp <$> leading_digits None rest
  | String "+" rest => leading_digits None rest
  | t => leading_digits None t
  end.

(** [s1] occurs in [s2]. *)
Definition contains (s2 s1 : string) : Prop :=
  exists before after, s2 = before +:+ s1 +:+ after.

(** ** The deployer *)

Record InstantiateResult := { res_address : value; res_raw_log : string }.

Section Deployer.
(** The runtime, the outside world, and the fields [config] and [network]
    of the deployer; its [signer] is part of the world and its [refs] part
    of the state. *)
Variable rt : Runtime.
Variable w : World.
Variable config : Config.
Variable network : string.

Definition with_cwd (dir : string) (st : state) : state :=
  {| cwd := dir; refs := refs st; files := files st; trace := trace st |}.

(** [process.cwd()] *)
Definition process_cwd : M string := fun st => (Return (cwd st), st).

(** [process.chdir(dir)] *)
Definition process_chdir (dir : string) : M unit :=
  fun st =>
    match chdir_result w dir with
    | Some e => (Throw e, st)
    | None => (Return tt, with_cwd dir st)
    end.

(** [spinner?.method(...)] *)
Definition optional_call (spinner : option Ora) (call : Ora -> event) : M unit :=
  match spinner with
  | Some o => emit (call o)
  | None => ret tt
  end.

(** [spinner.method(...)] *)
Definition member_call (spinner : option Ora) (method : string)
    (call : Ora -> event) : M unit :=
  match spinner with
  | Some o => emit (call o)
  | None => lift (throw_type_error rt (ReadOfNullish VUndefined method))
  end.

Definition signer_sequence_call : M float :=
  emit SignerSequence ;; lift (signer_sequence w).

Definition signer_createAndSignTx (options : CreateTxOptions) : M Tx :=
  emit (CreateAndSignTx options) ;; lift (createAndSignTx w options).

Definition lcd_broadcastSync (tx : Tx) : M SyncTxBroadcastResult :=
  emit (BroadcastSync tx) ;; lift (broadcastSync w tx).

Definition wait_for_inclusion (txhash : string) : M (option TxInfo) :=
  emit (WaitForInclusionInBlock txhash) ;; lift (waitForInclusionInBlock w txhash).

Definition refs_getCodeId (contract : string) : M value :=
  fun st => (Return (Refs.getCodeId (refs st) network contract), st).

Definition refs_setCodeId (contract : string) (v : value) : M unit :=
  fun st =>
    (Return tt,
     {| cwd := cwd st; refs := Refs.setCodeId network contract v (refs st);
        files := files st; trace := SetCodeId network contract v :: trace st |}).

Definition refs_setAddress (contract : string) (v : value) : M unit :=
  fun st =>
    (Return tt,
     {| cwd := cwd st; refs := Refs.setAddress network contract v (refs st);
        files := files st; trace := SetAddress network contract v :: trace st |}).

Definition refs_saveRefs : M unit :=
  fun st =>
    (Return tt,
     {| cwd := cwd st; refs := refs st;
        files := Refs.saveRefs (refs_base_path config) (refs_copy_refs_to config)
                   (refs st) (files st);
        trace := SaveRefs (refs_base_path config) (refs_copy_refs_to config)
                   :: trace st |}).

(** [JSON.parse(text)] *)
Definition json_parse (text : string) : outcome value :=
  match JSON_parse rt text with
  | inl m => Throw (SyntaxError m)
  | inr v => Return v
  end.

(** *** storeCode *)

(** Lines 129-134: the name of the bytecode file. *)
Definition wasmByteCodeFilename (contract : string) : string :=
  let name := replace_dashes contract in
  let name := if String.eqb (process_arch w) "arm64"
              then name +:+ "-arm64" else name in
  name +:+ ".wasm".

(** Lines 144-150: the one message of the transaction.  The condition is
    the truthiness of an optional number: [undefined], the two zeros and
    NaN are falsy. *)
Definition storeCode_msg (migrateCodeId : option float) (wasmByteCode : string) : Msg :=
  match migrateCodeId with
  | Some id =>
      if number_truthy id
      then MsgMigrateCode (accAddress w) id wasmByteCode
      else MsgStoreCode (accAddress w) wasmByteCode
  | None => MsgStoreCode (accAddress w) wasmByteCode
  end.

(** Lines 119-152: from the configuration check to the signed
    transaction.  Answers the directory the process was in and the signed
    transaction.  On a name that only [Object.prototype] answers to, the
    check of line 119 passes, [buildInfo.src] is [undefined] and
    [path.join] of line 125 throws. *)
Definition storeCode_sign (contract : string) (migrateCodeId : option float)
    (spinner : option Ora) : M (string * Tx) :=
  match contracts config !! contract with
  | None =>
      if inherited contract
      then throw (TypeError (path_undefined_message w))
      else throw (Error ("Contract " +:+ contract
                         +:+ " build information not found in config file."))
  | Some buildInfo =>
      here <- process_cwd ;;
      let contractFolder := path_join w [here; src buildInfo] in
      cwd0 <- process_cwd ;;
      process_chdir contractFolder ;;
      let wasm := path_join w [contractFolder; "artifacts";
                               wasmByteCodeFilename contract] in
      if negb (existsSync w wasm)
      then throw (Error ("WASM file " +:+ DQUOTE +:+ wasm +:+ DQUOTE
                         +:+ " not found in artifacts folder"))
      else
        wasmByteCode <- lift (readFileSync_base64 w wasm) ;;
        optional_call spinner
          (fun o => SpinnerStart o ("Uploading bytecode for " +:+ contract +:+ "...")) ;;
        storeCodeTx <- signer_createAndSignTx
          {| opt_sequence := None;
             opt_msgs := [storeCode_msg migrateCodeId wasmByteCode];
             opt_feeDenoms := None |} ;;
        ret (cwd0, storeCodeTx)
  end.

(** Line 166: [(res && res.raw_log) || ""] *)
Definition raw_log_or_empty (res : option TxInfo) : string :=
  match res with
  | Some r => if truthy (VStr (ti_raw_log r)) then ti_raw_log r else EmptyString
  | None => EmptyString
  end.

(** The events of the first entry: [log[0].events]. *)
Definition first_entry_events (log : value) : outcome value :=
  obind (index0 rt log) (fun entry => get_field rt entry f_events).

(** Lines 166-170: the code id read from the raw log. *)
Definition extract_code_id (text : string) : outcome value :=
  obind (json_parse text) (fun log =>
  obind (first_entry_events log) (fun events =>
  obind (call_find rt "JSON.parse(...)[0].events.find" events f_type "store_code")
    (fun msg =>
  obind (get_field rt msg f_attributes) (fun attributes =>
  obind (call_find rt "JSON.parse(...)[0].events.find(...).attributes.find"
           attributes f_key "code_id") (fun attr =>
  get_field rt attr f_value))))).

(** Lines 165-191: the [try] block and its handler. *)
Definition storeCode_record (contract : string) (spinner : option Ora)
    (cwd0 : string) (res : option TxInfo) : M value :=
  try_catch
    (savedCodeId <- lift (extract_code_id (raw_log_or_empty res)) ;;
     process_chdir cwd0 ;;
     member_call spinner "succeed"
       (fun o => SpinnerSucceed o
          (Some ("Uploaded bytecode for " +:+ contract +:+ ", code id: "
                 +:+ to_display savedCodeId))) ;;
     refs_setCodeId contract savedCodeId ;;
     refs_saveRefs ;;
     ret savedCodeId)
    (fun e =>
       member_call spinner "fail"
         (fun o => SpinnerFail o
            (Some ("Uploaded bytecode for " +:+ contract
                   +:+ ", unexpected error parsing results:"))) ;;
       if instanceof_SyntaxError e
       then throw (Error ("Error parsing raw_log from store_code transaction: "
                          +:+ err_message e))
       else throw (Error ("Unexpcted Error: " +:+ error_to_string e))).

(** Lines 154-191: broadcast, wait, record. *)
Definition storeCode_submit (contract : string) (spinner : option Ora)
    (cwd0 : string) (storeCodeTx : Tx) : M value :=
  result <- lcd_broadcastSync storeCodeTx ;;
  if has_code result
  then
    optional_call spinner (fun o => SpinnerFail o None) ;;
    throw (Error ("Error storing wasm file for " +:+ contract +:+ ":" +:+ LF
                  +:+ br_raw_log result))
  else
    res <- wait_for_inclusion (br_txhash result) ;;
    optional_call spinner (fun o => SpinnerSucceed o None) ;;
    storeCode_record contract spinner cwd0 res.

Definition storeCode (contract : string) (migrateCodeId : option float)
    (spinner_arg : argument Ora) : M value :=
  let spinner := default_param (ora "dots") spinner_arg in
  signed <- storeCode_sign contract migrateCodeId spinner ;;
  storeCode_submit contract spinner (fst signed) (snd signed).

(** *** instantiate *)

(** [options?.sequence], [options?.admin], ... *)
Definition optional_member {A} (options : option InstantiateContractOptions)
    (member : InstantiateContractOptions -> option A) : option A :=
  options ≫= member.

(** Line 206: [options?.sequence || (await this.signer.sequence())] *)
Definition manual_sequence (options : option InstantiateContractOptions) : M float :=
  match optional_member options sequence with
  | Some n => if number_truthy n then ret n else signer_sequence_call
  | None => signer_sequence_call
  end.

(** Line 216: [options?.label || "Instantiate"] *)
Definition label_or_default (options : option InstantiateContractOptions) : string :=
  match optional_member options label with
  | Some l => if truthy (VStr l) then l else "Instantiate"
  | None => "Instantiate"
  end.

(** Lines 208-229: the options handed to the signer. *)
Definition instantiate_tx_options (codeId : value) (msg : value)
    (options : option InstantiateContractOptions) (manualSequence : float)
  : CreateTxOptions :=
  {| opt_sequence := Some manualSequence;
     opt_msgs :=
       [MsgInstantiateContract (accAddress w) (optional_member options admin)
          (parseInt10 (to_display codeId)) msg (optional_member options coins)
          (label_or_default options)];
     opt_feeDenoms := Some ["uluna"] |}.

(** [res!.raw_log] *)
Definition res_raw_log_of (res : option TxInfo) : outcome string :=
  match res with
  | Some r => Return (ti_raw_log r)
  | None => throw_type_error rt (ReadOfNullish VUndefined "raw_log")
  end.

(** Lines 234-244: parsing the raw log. *)
Definition instantiate_parse (contract : string) (spinner : option Ora)
    (res : option TxInfo) : M value :=
  try_catch
    (lift (obind (res_raw_log_of res) json_parse))
    (fun e =>
       optional_call spinner (fun o => SpinnerFail o None) ;;
       match instanceof_SyntaxError e, res with
       | true, Some r =>
           throw (Error ("Error instantiating " +:+ contract +:+ ":" +:+ LF
                         +:+ ti_raw_log r))
       | _, _ => throw (Error ("Unexpcted Error: " +:+ error_to_string e))
       end).

(** [a ?? b] looks at [b] when [a] is [null] or [undefined]. *)
Definition nullish (v : value) : bool :=
  match v with VUndefined | VNull => true | _ => false end.

(** Lines 247-257: the contract address read from the parsed log. *)
Definition extract_contract_address (log : value) : outcome value :=
  obind (first_entry_events log) (fun events =>
  obind (call_find rt "log[0].events.find" events f_type "instantiate_contract")
    (fun primary =>
  obind (if nullish primary
         then obind (first_entry_events log) (fun events' =>
                call_find rt "log[0].events.find" events' f_type "instantiate")
         else Return primary) (fun event =>
  obind (get_field rt event f_attributes) (fun attributes =>
  obind (call_find rt "event.attributes.find" attributes f_key "_contract_address")
    (fun attr =>
  get_field rt attr f_value))))).

(** Lines 231-266: broadcast, wait, parse, record. *)
Definition instantiate_submit (contract : string) (spinner : option Ora)
    (instantiateTx : Tx) : M InstantiateResult :=
  result <- lcd_broadcastSync instantiateTx ;;
  res <- wait_for_inclusion (br_txhash result) ;;
  log <- instantiate_parse contract spinner res ;;
  optional_call spinner (fun o => SpinnerSucceed o None) ;;
  contractAddress <- lift (extract_contract_address log) ;;
  optional_call spinner
    (fun o => SpinnerSucceed o
       (Some ("Instantiated " +:+ contract +:+ " with address "
              +:+ to_display contractAddress))) ;;
  refs_setAddress contract contractAddress ;;
  refs_saveRefs ;;
  raw <- lift (res_raw_log_of res) ;;
  ret {| res_address := contractAddress; res_raw_log := raw |}.

Definition instantiate (contract : string) (msg : value)
    (options : option InstantiateContractOptions) (spinner_arg : argument Ora)
  : M InstantiateResult :=
  let spinner := default_param (ora "dots") spinner_arg in
  codeId <- refs_getCodeId contract ;;
  if negb (truthy codeId)
  then throw (Error ("Contract " +:+ contract +:+ " code id not found in refs."))
  else
    optional_call spinner
      (fun o => SpinnerStart o ("Instantiating " +:+ contract +:+ " with code id "
                                +:+ to_display codeId +:+ "...")) ;;
    manualSequence <- manual_sequence options ;;
    instantiateTx <- signer_createAndSignTx
      (instantiate_tx_options codeId msg options manualSequence) ;;
    instantiate_submit contract spinner instantiateTx.
End Deployer.

(** ** A concrete runtime and world *)

(** A reader for the part of JSON that ledger logs use: [null], [true],
    [false], integers, strings with the one-letter escapes, arrays and
    objects.  It serves to run the methods on concrete logs; the theorems
    hold for every [Runtime].  The wording of its syntax errors is its own,
    not an engine's. *)
Module MiniJSON.
Definition is_blank (c : ascii) : bool :=
  let n := N_of_ascii c in
  ((n =? 32) || (n =? 9) || (n =? 10) || (n =? 13))%N.

Fixpoint skip_blanks (s : string) : string :=
  match s with
  | String c rest => if is_blank c then skip_blanks rest else s
  | EmptyString => s
  end.

(** [expect p s]: [s] without its prefix [p]. *)
Fixpoint expect (p s : string) : option string :=
  match p, s with
  | EmptyString, _ => Some s
  | String a p', String b s' => if Ascii.eqb a b then expect p' s' else None
  | String _ _, EmptyString => None
  end.

Definition unescape (c : ascii) : option ascii :=
  match c with
  | "034" => Some "034"
  | "\" => Some "\"
  | "/" => Some "/"
  | "b" => Some "008"
  | "f" => Some "012"
  | "n" => Some "010"
  | "r" => Some "013"
  | "t" => Some "009"
  | _ => None
  end%char.

(** The characters of a string literal after its opening quote, and what
    follows the closing quote. *)
Fixpoint string_body (s : string) : option (string * string) :=
  match s with
  | EmptyString => None
  | String c rest =>
      if Ascii.eqb c "034" then Some (EmptyString, rest)
      else if Ascii.eqb c "\" then
        match rest with
        | String e rest' =>
            match unescape e, string_body rest' with
            | Some d, Some (body, after) => Some (String d body, after)
            | _, _ => None
            end
        | EmptyString => None
        end
      else if (N_of_ascii c <? 32)%N then None
      else
        match string_body rest with
        | Some (body, after) => Some (String c body, after)
        | None => None
        end
  end.

(** The digits at the head of [s], their value, and the rest. *)
Fixpoint digits (acc : Z) (seen : bool) (s : string) : option (Z * string) :=
  match s with
  | String c rest =>
      match digit_value c with
      | Some d => digits (10 * acc + d) true rest
      | None => if seen then Some (acc, s) else None
      end
  | EmptyString => if seen then Some (acc, s) else None
  end.

(** An integer literal: no leading zero, no fraction, no exponent. *)
Definition integer (s : string) : option (Z * string) :=
  match s with
  | String "0" (String c _) =>
      match digit_value c with
      | Some _ => None
      | None => digits 0 false s
      end
  | _ => digits 0 false s
  end.

Definition number (s : string) : option (value * string) :=
  let signed :=
    match s with
    | String "-" rest => prod_map Z.opp id <$> integer rest
    | _ => integer s
    end in
  match signed with
  | Some (n, String c rest) =>
      if Ascii.eqb c "." || Ascii.eqb c "e" || Ascii.eqb c "E"
      then None else Some (VNum n, String c rest)
  | Some (n, EmptyString) => Some (VNum n, EmptyString)
  | None => None
  end.

Fixpoint element (fuel : nat) (s : string) : option (value * string) :=
  match fuel with
  | O => None
  | S fuel' =>
      match skip_blanks s with
      | String "n" rest => pair VNull <$> expect "ull" rest
      | String "t" rest => pair (VBool true) <$> expect "rue" rest
      | String "f" rest => pair (VBool false) <$> expect "alse" rest
      | String "034" rest => prod_map VStr id <$> string_body rest
      | String "[" rest =>
          match skip_blanks rest with
          | String "]" rest' => Some (VArr [], rest')
          | _ => prod_map VArr id <$> elements fuel' rest
          end
      | String "{" rest =>
          match skip_blanks rest with
          | String "}" rest' => Some (VObj [], rest')
          | _ => prod_map VObj id <$> members fuel' rest
          end
      | t => number t
      end
  end
with elements (fuel : nat) (s : string) : option (list value * string) :=
  match fuel with
  | O => None
  | S fuel' =>
      match element fuel' s with
      | Some (v, rest) =>
          match skip_blanks rest with
          | String "," rest' => prod_map (cons v) id <$> elements fuel' rest'
          | String "]" rest' => Some ([v], rest')
          | _ => None
          end
      | None => None
      end
  end
with members (fuel : nat) (s : string) : option (list (string * value) * string) :=
  match fuel with
  | O => None
  | S fuel' =>
      match skip_blanks s with
      | String "034" rest =>
          match string_body rest with
          | Some (k, rest1) =>
              match skip_blanks rest1 with
              | String ":" rest2 =>
                  match element fuel' rest2 with
                  | Some (v, rest3) =>
                      match skip_blanks rest3 with
                      | String "," rest4 =>
                          prod_map (cons (k, v)) id <$> members fuel' rest4
                      | String "}" rest4 => Some ([(k, v)], rest4)
                      | _ => None
                      end
                  | None => None
                  end
              | _ => None
              end
          | None => None
          end
      | _ => None
      end
  end.

Definition parse (s : string) : string + value :=
  match element (2 * String.length s + 2) s with
  | Some (v, rest) =>
      match skip_blanks rest with
      | EmptyString => inr v
      | _ => inl "Unexpected non-whitespace character after JSON"
      end
  | None => inl "Unexpected token in JSON"
  end.
End MiniJSON.

(** The wording of V8's TypeErrors. *)
Definition v8_type_error_message (f : fault) : string :=
  match f with
  | ReadOfNullish base prop =>
      "Cannot read properties of " +:+ to_display base
      +:+ " (reading '" +:+ prop +:+ "')"
  | NotAFunction callee => callee +:+ " is not a function"
  end.

Definition node : Runtime :=
  {| JSON_parse := MiniJSON.parse;
     type_error_message := v8_type_error_message;
     JSON_parse_empty := ex_intro _ "Unexpected token in JSON" eq_refl |}.

(** JSON texts below are written with ['] where JSON has the double quote. *)
Fixpoint json_text (s : string) : string :=
  match s with
  | EmptyString => EmptyString
  | String c rest => String (if Ascii.eqb c "'" then "034"%char else c) (json_text rest)
  end.

(** A deployment of the contract [vault] to [testnet]. *)
Module Scenario.
Definition config : Config :=
  {| contracts := {[ "vault" := {| src := "contracts/vault" |} ]};
     refs_base_path := "refs.json";
     refs_copy_refs_to := ["app/refs.json"] |}.

Definition network : string := "testnet".

Definition join (parts : list string) : string := String.concat "/" parts.

(** The wording of Node's complaint about an [undefined] argument of
    [path.join]. *)
Definition node_path_undefined_message : string :=
  "The " +:+ DQUOTE +:+ "path" +:+ DQUOTE
  +:+ " argument must be of type string. Received undefined".

Definition artifact : string := "/work/contracts/vault/artifacts/vault.wasm".

Definition signed : Tx := {| tx_bytes := "c2lnbmVk" |}.

Definition accepted : SyncTxBroadcastResult :=
  {| br_height := 0; br_txhash := "7A1F"; br_raw_log := "[]";
     br_code := None; br_codespace := None |}.

Definition rejected : SyncTxBroadcastResult :=
  {| br_height := 0; br_txhash := "7A1F";
     br_raw_log := "insufficient fees; got: 1uluna required: 1000uluna";
     br_code := Some 13; br_codespace := Some "sdk" |}.

Definition included (raw_log : string) : option TxInfo :=
  Some {| ti_height := 120; ti_txhash := "7A1F"; ti_raw_log := raw_log |}.

(** The world is fixed up to the answers of the ledger: the broadcast
    result and what the waiter finds. *)
Definition world (broadcast : SyncTxBroadcastResult) (found : option TxInfo) : World :=
  {| process_arch := "x64";
     path_join := join;
     path_undefined_message := node_path_undefined_message;
     chdir_result := fun _ => None;
     existsSync := fun p => String.eqb p artifact;
     readFileSync_base64 := fun _ => Return "AGFzbQEAAAA=";
     accAddress := "terra1signer";
     signer_sequence := Return 7%float;
     createAndSignTx := fun _ => Return signed;
     broadcastSync := fun _ => Return broadcast;
     waitForInclusionInBlock := fun _ => Return found |}.

Definition start : state :=
  {| cwd := "/work"; refs := ∅; files := ∅; trace := [] |}.

(** A state in which the code id of [vault] is known. *)
Definition uploaded : state :=
  {| cwd := "/work"; refs := Refs.setCodeId network "vault" (VStr "42") ∅;
     files := ∅; trace := [] |}.

Definition store_log : string :=
  json_text "[{'events':[{'type':'message','attributes':[{'key':'action','value':'store_code'}]},{'type':'store_code','attributes':[{'key':'sender','value':'terra1signer'},{'key':'code_id','value':'42'}]}]}]".

Definition instantiate_log : string :=
  json_text "[{'events':[{'type':'instantiate','attributes':[{'key':'_contract_address','value':'terra1old'}]},{'type':'instantiate_contract','attributes':[{'key':'_contract_address','value':'terra1vault'},{'key':'code_id','value':'42'}]}]}]".

Definition fallback_log : string :=
  json_text "[{'events':[{'type':'instantiate','attributes':[{'key':'_contract_address','value':'terra1abc'}]}]}]".




(** Well-formed, but without the expected event. *)
Definition eventless_log : string := json_text "[{'events':[]}]".


(** [storeCode("vault", migrateCodeId, spinner)] from the start, with the
    broadcast accepted and a transaction with the given raw log found. *)
Definition upload (migrateCodeId : option float) (spinner : argument Ora)
    (raw_log : string) : outcome value * state :=
  storeCode node (world accepted (included raw_log)) config network "vault"
    migrateCodeId spinner start.

(** [instantiate("vault", {owner: "x"}, options)] once the code id is
    known, with the given answer to the broadcast and a transaction with
    the given raw log found. *)
Definition create (broadcast : SyncTxBroadcastResult)
    (options : option InstantiateContractOptions) (raw_log : string)
  : outcome InstantiateResult * state :=
  instantiate node (world broadcast (included raw_log)) config network "vault"
    (VObj [("owner", VStr "x")]) options omitted uploaded.
End Scenario.

(** ** Vocabulary of the statements *)

(** [x] is the first element of [l] that satisfies [P]. *)
Definition first_such (P : value -> Prop) (l : list value) (x : value) : Prop :=
  exists before after,
    l = before ++ x :: after /\ P x /\ Forall (fun y => ~ P y) before.

(** [v] is an object whose member [k] is the string [s]. *)
Definition has_string_member (k s : string) (v : value) : Prop :=
  exists members, v = VObj members /\ own_property members k = Some (VStr s).

(** [v] is an object and [x] is its member [k] ([undefined] without one). *)
Definition member_is (k : string) (v x : value) : Prop :=
  exists members, v = VObj members /\ x = default VUndefined (own_property members k).

(** [entry] is the first entry of the parsed log: the head of an array (or
    the member [0] of an object, which [log[0]] reads just as well). *)
Definition first_entry (log entry : value) : Prop :=
  (exists rest, log = VArr (entry :: rest)) \/
  (exists members, log = VObj members /\ own_property members "0" = Some entry).

(** [events] are the events of the first entry of the parsed log. *)
Definition logged_events (log : value) (events : list value) : Prop :=
  exists entry, first_entry log entry /\ member_is "events" entry (VArr events).

(** [v] is the value of the attribute with key [key] of the event with type
    [type] (the first such attribute of the first such event). *)
Definition event_attribute (events : list value) (type key : string) (v : value) : Prop :=
  exists event attributes attr,
    first_such (has_string_member "type" type) events event /\
    member_is "attributes" event (VArr attributes) /\
    first_such (has_string_member "key" key) attributes attr /\
    member_is "value" attr v.





(** [s1] is a prefix of [s2]. *)
Fixpoint starts_with (s1 s2 : string) : bool :=
  match s1, s2 with
  | EmptyString, _ => true
  | String a s1', String b s2' => Ascii.eqb a b && starts_with s1' s2'
  | String _ _, EmptyString => false
  end.

(** [s1] occurs in [s2]: the decision procedure for [contains s2 s1]. *)
Fixpoint occurs_in (s1 s2 : string) : bool :=
  starts_with s1 s2 ||
  match s2 with
  | String _ rest => occurs_in s1 rest
  | EmptyString => false
  end.

(** The world [w] with the error code of every broadcast result rewritten by
    [f]. *)
Definition with_broadcast_code
    (f : SyncTxBroadcastResult -> option Z * option string) (w : World) : World :=
  {| process_arch := process_arch w;
     path_join := path_join w;
     path_undefined_message := path_undefined_message w;
     chdir_result := chdir_result w;
     existsSync := existsSync w;
     readFileSync_base64 := readFileSync_base64 w;
     accAddress := accAddress w;
     signer_sequence := signer_sequence w;
     createAndSignTx := createAndSignTx w;
     broadcastSync := fun tx =>
       obind (broadcastSync w tx) (fun r =>
         Return {| br_height := br_height r; br_txhash := br_txhash r;
                   br_raw_log := br_raw_log r;
                   br_code := fst (f r); br_codespace := snd (f r) |});
     waitForInclusionInBlock := waitForInclusionInBlock w |}.

(** Whatever [m] does, the events it adds to the trace all satisfy [P]. *)
Definition emits_only {A} (P : event -> Prop) (m : M A) : Prop :=
  forall st o st',
    m st = (o, st') -> exists events, trace st' = events ++ trace st /\ Forall P events.

Definition is_sign_request (e : event) : Prop :=
  match e with CreateAndSignTx _ => True | _ => False end.

Definition is_broadcast (e : event) : Prop :=
  match e with BroadcastSync _ => True | _ => False end.

(** [e] is a write to the reference store. *)
Definition is_store_write (e : event) : Prop :=
  match e with
  | SetCodeId _ _ _ | SetAddress _ _ _ | SaveRefs _ _ => True
  | _ => False
  end.

(** The trace [t'] is [t] with events added that all satisfy [P]. *)
Definition grown_by (P : event -> Prop) (t t' : list event) : Prop :=
  exists events, t' = events ++ t /\ Forall P events.

(** [e] is a call on the signer, the ledger client or the waiter. *)
Definition is_ledger_call (e : event) : bool :=
  match e with
  | SignerSequence | CreateAndSignTx _ | BroadcastSync _
  | WaitForInclusionInBlock _ => true
  | _ => false
  end.

(** The calls on the ledger a method may have made, newest first: it asks
    for the sequence (or not), has one request signed, broadcasts what the
    signer returned, and waits for the hash the broadcast returned; it may
    stop after any of these. *)
Inductive ledger_dialogue (w : World) : list event -> Prop :=
| asked_nothing : ledger_dialogue w []
| asked_sequence : ledger_dialogue w [SignerSequence]
| asked_signature request first :
    first = [] \/ first = [SignerSequence] ->
    ledger_dialogue w (CreateAndSignTx request :: first)
| asked_broadcast request tx first :
    first = [] \/ first = [SignerSequence] ->
    createAndSignTx w request = Return tx ->
    ledger_dialogue w (BroadcastSync tx :: CreateAndSignTx request :: first)
| asked_inclusion request tx result first :
    first = [] \/ first = [SignerSequence] ->
    createAndSignTx w request = Return tx ->
    broadcastSync w tx = Return result ->
    ledger_dialogue w (WaitForInclusionInBlock (br_txhash result)
                       :: BroadcastSync tx :: CreateAndSignTx request :: first).

(** ** The build pipeline *)

(** [buildContract] and [optimizeContract] (lines 50-112) run external
    commands in the folder of a contract.  They touch neither the ledger
    nor the reference store, so they run in a state of their own: the
    working directory and a trace of what they asked of the spinner and of
    the shell.  [ExecSync dir command inherit] is a call of [execSync]
    made while the working directory of the process was [dir], which is
    where the command runs. *)
Inductive build_event :=
| BuildSpinnerStart (sp : Ora) (text : string)
| BuildSpinnerSucceed (sp : Ora) (text : string)
| ExecSync (dir : string) (command : value) (inherit : bool).

Record shell := { sh_cwd : string; sh_trace : list build_event }.

(** The parameters of [optimizeContract] after their defaults: variables
    that code evaluated inside the method can assign to. *)
Record Parameters := {
  p_contract : string;
  p_spinner : option Ora;
  p_log : bool;
}.

(** The constants of [optimizeContract] in scope at line 94, which code
    evaluated there can read. *)
Record Constants := {
  c_buildInfo : BuildInfo;
  c_contractFolder : string;
  c_cwd : string;
  c_cargoFile : string;
  c_pkg : value;
  c_optimize : value;
}.

(** What the two methods ask beyond the [World]: [os.platform()],
    [readFileSync(path, "utf8")], [parse] of the toml package (which answers
    a table, kept by its members), [eval], and [execSync(command, { stdio })]
    with [stdio] either ["inherit"] ([true]) or ["ignore"], whose result
    depends on the directory it is run in.  The [eval] of line 94 is a
    direct one: the text runs as code of the method, so it reads the
    method's variables, may assign to its parameters and may act on the
    process.  [eval_js] is given the text, the variables and the shell, and
    answers with a value or an exception, the parameters as the text left
    them and the shell as it left it. *)
Record Toolchain := {
  os_platform : string;
  readFileSync_utf8 : string -> outcome string;
  parseTOML : string -> outcome (list (string * value));
  eval_js : string -> Constants -> Parameters -> shell
            -> outcome value * Parameters * shell;
  execSync : string -> value -> bool -> option js_error;
}.

Definition Sh (A : Type) : Type := shell -> outcome A * shell.

Definition sh_ret {A} (a : A) : Sh A := fun sh => (Return a, sh).
Definition sh_throw {A} (e : js_error) : Sh A := fun sh => (Throw e, sh).
Definition sh_lift {A} (o : outcome A) : Sh A := fun sh => (o, sh).
Definition sh_bind {A B} (m : Sh A) (k : A -> Sh B) : Sh B :=
  fun sh =>
    match m sh with
    | (Return a, sh') => k a sh'
    | (Throw e, sh') => (Throw e, sh')
    end.

Declare Scope sh_scope.
Delimit Scope sh_scope with sh.
Notation "x <- m ;; k" := (sh_bind m (fun x => k))
  (at level 100, m at next level, right associativity) : sh_scope.
Notation "m ;; k" := (sh_bind m (fun _ => k))
  (at level 100, right associativity) : sh_scope.

Definition sh_emit (e : build_event) : Sh unit :=
  fun sh => (Return tt, {| sh_cwd := sh_cwd sh; sh_trace := e :: sh_trace sh |}).

(** A parameter [p: A = d], of type [A]. *)
Definition default_value {A} (d : A) (a : argument A) : A :=
  match a with
  | omitted | passed_undefined => d
  | passed x => x
  end.

(** The back quote. *)
Definition BACKQUOTE : string := String "096"%char EmptyString.

(** A character that a template literal takes as it stands: any but the
    back quote (which ends the literal), the backslash (which opens an
    escape), the dollar (which may open a placeholder) and the carriage
    return (which is read as a line feed). *)
Definition plain_char (c : ascii) : bool :=
  negb (Ascii.eqb c "096" || Ascii.eqb c "092" || Ascii.eqb c "036"
        || Ascii.eqb c "013").

Fixpoint plain_text (s : string) : bool :=
  match s with
  | EmptyString => true
  | String c rest => plain_char c && plain_text rest
  end.

Section Build.
Variable rt : Runtime.
Variable w : World.
Variable tools : Toolchain.
Variable config : Config.

Local Open Scope sh_scope.

Definition sh_process_cwd : Sh string := fun sh => (Return (sh_cwd sh), sh).

Definition sh_process_chdir (dir : string) : Sh unit :=
  fun sh =>
    match chdir_result w dir with
    | Some e => (Throw e, sh)
    | None => (Return tt, {| sh_cwd := dir; sh_trace := sh_trace sh |})
    end.

(** [spinner?.method(text)] *)
Definition sh_optional_call (spinner : option Ora) (call : Ora -> build_event)
  : Sh unit :=
  match spinner with
  | Some o => sh_emit (call o)
  | None => sh_ret tt
  end.

(** [execSync(command, { stdio: log ? "inherit" : "ignore" })]: the
    command runs in the working directory of the process. *)
Definition sh_execSync (command : value) (log : bool) : Sh unit :=
  here <- sh_process_cwd ;;
  sh_emit (ExecSync here command log) ;;
  match execSync tools here command log with
  | Some e => sh_throw e
  | None => sh_ret tt
  end.

(** Line 94: [eval] of [text] between back quotes.  A text of plain
    characters between back quotes is a template literal without
    placeholders, whose value is the text itself; evaluating it does
    nothing else.  Any other text is for the engine. *)
Definition eval_backquoted (text : string) (constants : Constants)
    (params : Parameters) : Sh (value * Parameters) :=
  if plain_text text
  then sh_ret (VStr text, params)
  else
    fun sh =>
      match eval_js tools (BACKQUOTE +:+ text +:+ BACKQUOTE) constants params sh with
      | (Return v, params', sh') => (Return (v, params'), sh')
      | (Throw e, _, sh') => (Throw e, sh')
      end.

(** Lines 50-68.  On a name that only [Object.prototype] answers to, the
    check of line 55 passes, [buildInfo.src] is [undefined] and [path.join]
    of line 61 throws. *)
Definition buildContract (contract : string) (spinner_arg : argument Ora)
    (log_arg : argument bool) : Sh unit :=
  let spinner := default_param (ora "dots") spinner_arg in
  let log := default_value false log_arg in
  match contracts config !! contract with
  | None =>
      if inherited contract
      then sh_throw (TypeError (path_undefined_message w))
      else sh_throw (Error ("Contract " +:+ contract
                            +:+ " build information not found in config file."))
  | Some buildInfo =>
      here <- sh_process_cwd ;;
      let contractFolder := path_join w [here; src buildInfo] in
      cwd0 <- sh_process_cwd ;;
      sh_process_chdir contractFolder ;;
      sh_optional_call spinner
        (fun o => BuildSpinnerStart o ("Building " +:+ contract +:+ "...")) ;;
      sh_execSync (VStr "cargo wasm") log ;;
      sh_optional_call spinner
        (fun o => BuildSpinnerSucceed o ("Built " +:+ contract +:+ " successfully.")) ;;
      sh_process_chdir cwd0
  end.

(** [v.name] for the names read from the manifest, none of which is a
    member of a built-in prototype. *)
Definition get_member (v : value) (name : string) : outcome value :=
  match v with
  | VUndefined | VNull => throw_type_error rt (ReadOfNullish v name)
  | VObj members => Return (default VUndefined (own_property members name))
  | VBool _ | VNum _ | VStr _ | VArr _ => Return VUndefined
  end.

(** Line 90: [pkg.metadata?.scripts?.optimize] *)
Definition optimize_script (pkg : value) : outcome value :=
  obind (get_member pkg "metadata") (fun metadata =>
  if nullish metadata then Return VUndefined
  else
    obind (get_member metadata "scripts") (fun scripts =>
    if nullish scripts then Return VUndefined
    else get_member scripts "optimize")).

(** Line 91: [const { optimize } = pkg.metadata.scripts] *)
Definition optimize_of (pkg : value) : outcome value :=
  obind (get_member pkg "metadata") (fun metadata =>
  obind (get_member metadata "scripts") (fun scripts =>
  get_member scripts "optimize")).

(** Line 99: the image of the default optimizer. *)
Definition optimizer_image : string :=
  "cosmwasm/rust-optimizer"
  +:+ (if String.eqb (process_arch w) "arm64" then "-arm64" else EmptyString)
  +:+ ":0.12.5".

(** Line 100: the folder to mount, in the shell's own words. *)
Definition mounted_dir : string :=
  if String.eqb (os_platform tools) "win32" then "%cd%" else "$(pwd)".

(** Lines 103-106: the command of the default optimizer.  A backslash at
    the end of a line of a template literal continues the line; the blanks
    that open the next line stay. *)
Definition docker_command (contract : string) : string :=
  "docker run --rm -v " +:+ DQUOTE +:+ mounted_dir +:+ DQUOTE +:+ ":/code "
  +:+ "              --mount type=volume,source=" +:+ DQUOTE +:+ contract
  +:+ "_cache" +:+ DQUOTE +:+ ",target=/code/target "
  +:+ "              --mount type=volume,source=registry_cache,target=/usr/local/cargo/registry "
  +:+ "              " +:+ optimizer_image.

(** Lines 95-96 and 101-108: the spinner is started and the command run. *)
Definition run_optimizer (params : Parameters) (command : value) : Sh unit :=
  sh_optional_call (p_spinner params)
    (fun o => BuildSpinnerStart o ("Optimizing " +:+ p_contract params +:+ "...")) ;;
  sh_execSync command (p_log params).

(** Lines 70-112.  On a name that only [Object.prototype] answers to, the
    check of line 75 passes, [buildInfo.src] is [undefined] and [path.join]
    of line 81 throws.  What follows the [eval] of line 94 reads the
    parameters as the evaluated text left them. *)
Definition optimizeContract (contract : string) (spinner_arg : argument Ora)
    (log_arg : argument bool) : Sh unit :=
  let spinner := default_param (ora "dots") spinner_arg in
  let log := default_value false log_arg in
  let params := {| p_contract := contract; p_spinner := spinner; p_log := log |} in
  match contracts config !! contract with
  | None =>
      if inherited contract
      then sh_throw (TypeError (path_undefined_message w))
      else sh_throw (Error ("Contract " +:+ contract
                            +:+ " build information not found in config file."))
  | Some buildInfo =>
      here <- sh_process_cwd ;;
      let contractFolder := path_join w [here; src buildInfo] in
      cwd0 <- sh_process_cwd ;;
      sh_process_chdir contractFolder ;;
      let cargoFile := path_join w [contractFolder; "Cargo.toml"] in
      if negb (existsSync w cargoFile)
      then sh_throw (Error ("Cargo.toml not found in " +:+ contractFolder))
      else
        text <- sh_lift (readFileSync_utf8 tools cargoFile) ;;
        manifest <- sh_lift (parseTOML tools text) ;;
        let pkg := default VUndefined (own_property manifest "package") in
        script <- sh_lift (optimize_script pkg) ;;
        params' <-
          (if truthy script
           then
             optimize <- sh_lift (optimize_of pkg) ;;
             evaluated <- eval_backquoted (to_display optimize)
               {| c_buildInfo := buildInfo; c_contractFolder := contractFolder;
                  c_cwd := cwd0; c_cargoFile := cargoFile; c_pkg := pkg;
                  c_optimize := optimize |} params ;;
             run_optimizer (snd evaluated) (fst evaluated) ;;
             sh_ret (snd evaluated)
           else
             run_optimizer params (VStr (docker_command contract)) ;;
             sh_ret params) ;;
        sh_optional_call (p_spinner params')
          (fun o => BuildSpinnerSucceed o
                      ("Optimized " +:+ p_contract params' +:+ " successfully.")) ;;
        sh_process_chdir cwd0
  end.
End Build.

(** A workshop to run the build pipeline in: the contract [vault] of
    [Scenario.config], with or without a manifest, and a shell whose
    commands succeed or fail. *)
Module Workshop.
Definition manifest_path : string := "/work/contracts/vault/Cargo.toml".

Definition world (arch : string) (has_manifest : bool) : World :=
  {| process_arch := arch;
     path_join := Scenario.join;
     path_undefined_message := Scenario.node_path_undefined_message;
     chdir_result := fun _ => None;
     existsSync := fun p => has_manifest && String.eqb p manifest_path;
     readFileSync_base64 := fun _ => Return EmptyString;
     accAddress := "terra1signer";
     signer_sequence := Return 7%float;
     createAndSignTx := fun _ => Return Scenario.signed;
     broadcastSync := fun _ => Return Scenario.accepted;
     waitForInclusionInBlock := fun _ => Return None |}.

Definition plain_manifest : list (string * value) :=
  [("package", VObj [("name", VStr "vault"); ("version", VStr "0.1.0")])].


(** The commands of the workshop succeed or fail alike, wherever they are
    run.  Its manifests hold plain scripts only, which need no engine; the
    engine of the workshop refuses any other text. *)
Definition tools (platform : string) (manifest : list (string * value))
    (failure : option js_error) : Toolchain :=
  {| os_platform := platform;
     readFileSync_utf8 := fun _ => Return "[package]";
     parseTOML := fun _ => Return manifest;
     eval_js := fun _ _ params sh =>
       (Throw (Error "no engine in the workshop"), params, sh);
     execSync := fun _ _ _ => failure |}.

Definition start : shell := {| sh_cwd := "/work"; sh_trace := [] |}.

(** A raw log whose [code_id] attribute has no value. *)
Definition valueless_log : string :=
  json_text "[{'events':[{'type':'store_code','attributes':[{'key':'code_id'}]}]}]".
End Workshop.

(** * Properties *)

(** ** Reading parsed logs *)

Section AccessLemmas.
Variable rt : Runtime.

Lemma get_field_string v f t :
  get_field rt v f = Return (VStr t) -> has_string_member (field_name f) t v.
Proof.
  destruct v; simpl; try discriminate.
  intros H. exists members. split; [reflexivity|].
  destruct (own_property members (field_name f)); simpl in H; congruence.
Qed.

Lemma has_string_member_get_field v f t :
  has_string_member (field_name f) t v -> get_field rt v f = Return (VStr t).
Proof. intros (members & -> & H). simpl. now rewrite H. Qed.

Lemma get_field_array v f l :
  get_field rt v f = Return (VArr l) -> member_is (field_name f) v (VArr l).
Proof.
  destruct v; simpl; try discriminate.
  intros H. exists members. split; congruence.
Qed.

Lemma get_field_of_object members f x :
  get_field rt (VObj members) f = Return x ->
  member_is (field_name f) (VObj members) x.
Proof. simpl. intros H. exists members. split; congruence. Qed.

Lemma call_find_Return callee v f s x :
  call_find rt callee v f s = Return x ->
  exists l, v = VArr l /\ find_by rt f s l = Return x.
Proof. destruct v; simpl; try discriminate. eauto. Qed.

(** [find] answers the first element whose member is the string sought,
    or [undefined] when there is none. *)
Lemma find_by_Return f s l x :
  find_by rt f s l = Return x ->
  (x = VUndefined /\ Forall (fun y => ~ has_string_member (field_name f) s y) l)
  \/ first_such (has_string_member (field_name f) s) l x.
Proof.
  induction l as [|y l IH]; simpl.
  - intros [= <-]. left. split; [reflexivity | constructor].
  - destruct (get_field rt y f) as [m|e] eqn:Hy; [|discriminate].
    assert (Hskip : ~ has_string_member (field_name f) s y ->
                    find_by rt f s l = Return x ->
                    (x = VUndefined /\
                     Forall (fun y => ~ has_string_member (field_name f) s y) (y :: l))
                    \/ first_such (has_string_member (field_name f) s) (y :: l) x).
    { intros Hno Hrest. destruct (IH Hrest) as [[-> Hall] | (b & a & -> & Hx & Hb)].
      - left. split; [reflexivity | now constructor].
      - right. exists (y :: b), a. repeat split; [assumption | now constructor]. }
    assert (Hm : forall t, m = VStr t -> has_string_member (field_name f) t y)
      by (intros t ->; now apply get_field_string).
    assert (Hn : forall t, has_string_member (field_name f) t y -> m = VStr t).
    { intros t Ht. apply has_string_member_get_field in Ht. congruence. }
    destruct m as [| | | |t| |];
      try (apply Hskip; intros Hc; apply Hn in Hc; discriminate).
    destruct (String.eqb_spec t s) as [-> | Hne].
    + intros [= <-]. right. exists [], l. repeat split; [now apply Hm | constructor].
    + apply Hskip. intros Hc. apply Hn in Hc. congruence.
Qed.

Lemma first_such_object k s l x :
  first_such (has_string_member k s) l x -> exists members, x = VObj members.
Proof. intros (_ & _ & _ & (members & -> & _) & _). eauto. Qed.

(** What [find] found can be read further only if it found something. *)
Lemma find_then_get f s l x g y :
  find_by rt f s l = Return x ->
  get_field rt x g = Return y ->
  first_such (has_string_member (field_name f) s) l x /\
  member_is (field_name g) x y.
Proof.
  intros Hfind Hget.
  destruct (find_by_Return _ _ _ _ Hfind) as [[-> _] | Hfirst]; [discriminate|].
  split; [assumption|].
  destruct (first_such_object _ _ _ _ Hfirst) as [members ->].
  now apply get_field_of_object.
Qed.





Lemma first_entry_events_Return log l :
  first_entry_events rt log = Return (VArr l) -> logged_events log l.
Proof.
  unfold first_entry_events, obind.
  destruct (index0 rt log) as [entry|] eqn:Hentry; [|discriminate].
  intros Hev. apply get_field_array in Hev.
  exists entry. split; [|assumption].
  destruct Hev as (members & -> & _).
  destruct log as [| | | |s|elems|lm]; simpl in Hentry; try discriminate.
  - destruct s; discriminate.
  - left. destruct elems as [|e rest]; simpl in Hentry; [discriminate|].
    exists rest. congruence.
  - right. exists lm. split; [reflexivity|].
    destruct (own_property lm "0"); simpl in Hentry; congruence.
Qed.
End AccessLemmas.

(** ** Extraction from the raw log *)

Section Extraction.
Variable rt : Runtime.

Lemma obind_Return {A B} (o : outcome A) (k : A -> outcome B) b :
  obind o k = Return b -> exists a, o = Return a /\ k a = Return b.
Proof. destruct o; simpl; [eauto | discriminate]. Qed.

(** The attribute read off an event that [find] found. *)
Lemma attribute_of_event callee events type event attributes key attr v :
  find_by rt f_type type events = Return event ->
  get_field rt event f_attributes = Return attributes ->
  call_find rt callee attributes f_key key = Return attr ->
  get_field rt attr f_value = Return v ->
  event_attribute events type key v.
Proof.
  intros Hevent Hattrs Hfind Hvalue.
  destruct (call_find_Return _ _ _ _ _ _ Hfind) as (l & -> & Hattr).
  destruct (find_then_get _ _ _ _ _ _ _ Hevent Hattrs) as [He Ha].
  destruct (find_then_get _ _ _ _ _ _ _ Hattr Hvalue) as [Hk Hv].
  exists event, l, attr. auto.
Qed.

Lemma json_parse_Return text log :
  json_parse rt text = Return log -> JSON_parse rt text = inr log.
Proof. unfold json_parse. destruct (JSON_parse rt text); congruence. Qed.

Lemma json_parse_empty : exists m, json_parse rt EmptyString = Throw (SyntaxError m).
Proof.
  destruct (JSON_parse_empty rt) as [m H]. exists m.
  unfold json_parse. now rewrite H.
Qed.

Lemma extract_code_id_Return text v :
  extract_code_id rt text = Return v ->
  exists log events,
    JSON_parse rt text = inr log /\ logged_events log events /\
    event_attribute events "store_code" "code_id" v.
Proof.
  unfold extract_code_id. intros H.
  apply obind_Return in H as (log & Hlog & H).
  apply obind_Return in H as (events & Hevents & H).
  apply obind_Return in H as (msg & Hmsg & H).
  apply obind_Return in H as (attributes & Hattrs & H).
  apply obind_Return in H as (attr & Hattr & H).
  apply call_find_Return in Hmsg as (l & -> & Hmsg).
  exists log, l. split; [now apply json_parse_Return|].
  split; [now apply (first_entry_events_Return rt)|].
  eapply attribute_of_event; eassumption.
Qed.

Lemma extract_code_id_empty :
  exists m, extract_code_id rt EmptyString = Throw (SyntaxError m).
Proof.
  destruct json_parse_empty as [m H]. exists m.
  unfold extract_code_id. now rewrite H.
Qed.



(** Reading a parsed log fails with a [TypeError] only. *)
Lemma get_field_Throw v f e :
  get_field rt v f = Throw e -> err_class e = ClsTypeError.
Proof. destruct v; simpl; try discriminate; now intros [= <-]. Qed.

Lemma index0_Throw v e : index0 rt v = Throw e -> err_class e = ClsTypeError.
Proof.
  destruct v as [| | | |s| |]; simpl; try discriminate; try now intros [= <-].
  destruct s; discriminate.
Qed.

Lemma find_by_Throw f s l e :
  find_by rt f s l = Throw e -> err_class e = ClsTypeError.
Proof.
  induction l as [|x l IH]; simpl; [discriminate|].
  destruct (get_field rt x f) as [m|e'] eqn:Hx.
  - destruct m; try exact IH. destruct (String.eqb _ _); [discriminate | exact IH].
  - intros [= <-]. eapply get_field_Throw; eassumption.
Qed.

Lemma call_find_Throw callee v f s e :
  call_find rt callee v f s = Throw e -> err_class e = ClsTypeError.
Proof.
  destruct v; simpl; try (now intros [= <-]). apply find_by_Throw.
Qed.

Lemma obind_Throw {A B} (o : outcome A) (k : A -> outcome B) e (P : js_error -> Prop) :
  obind o k = Throw e ->
  (forall e', o = Throw e' -> P e') ->
  (forall a e', k a = Throw e' -> P e') ->
  P e.
Proof.
  destruct o as [a|e0]; simpl; intros H Ho Hk.
  - exact (Hk a e H).
  - injection H as <-. exact (Ho e0 eq_refl).
Qed.

Lemma first_entry_events_Throw log e :
  first_entry_events rt log = Throw e -> err_class e = ClsTypeError.
Proof.
  unfold first_entry_events. intros H.
  apply (obind_Throw _ _ _ (fun x => err_class x = ClsTypeError) H).
  - intros e'. apply index0_Throw.
  - intros a e'. apply get_field_Throw.
Qed.


Lemma extract_contract_address_Throw log e :
  extract_contract_address rt log = Throw e -> err_class e = ClsTypeError.
Proof.
  unfold extract_contract_address. intros H.
  apply (obind_Throw _ _ _ (fun x => err_class x = ClsTypeError) H);
    [intros e'; apply first_entry_events_Throw|]. clear H.
  intros events e1 H.
  apply (obind_Throw _ _ _ (fun x => err_class x = ClsTypeError) H);
    [intros e'; apply call_find_Throw|]. clear H.
  intros primary e2 H.
  apply (obind_Throw _ _ _ (fun x => err_class x = ClsTypeError) H); clear H.
  - destruct (nullish primary); [|discriminate].
    intros e3 H.
    apply (obind_Throw _ _ _ (fun x => err_class x = ClsTypeError) H);
      [intros e'; apply first_entry_events_Throw|].
    intros a e4. apply call_find_Throw.
  - intros event e3 H.
    apply (obind_Throw _ _ _ (fun x => err_class x = ClsTypeError) H);
      [intros e'; apply get_field_Throw|]. clear H.
    intros attributes e4 H.
    apply (obind_Throw _ _ _ (fun x => err_class x = ClsTypeError) H);
      [intros e'; apply call_find_Throw|]. clear H.
    intros attr e5. apply get_field_Throw.
Qed.
End Extraction.

(** ** The reference store *)

Lemma getCodeId_setCodeId (r : gmap string (gmap string RefEntry)) network contract v :
  Refs.getCodeId (Refs.setCodeId network contract v r) network contract = v.
Proof.
  unfold Refs.getCodeId, Refs.setCodeId, Refs.set_entry, Refs.entry.
  rewrite lookup_insert_eq. simpl. now rewrite lookup_insert_eq.
Qed.


Lemma getCodeId_setAddress (r : gmap string (gmap string RefEntry)) network contract v :
  Refs.getCodeId (Refs.setAddress network contract v r) network contract
  = Refs.getCodeId r network contract.
Proof.
  unfold Refs.getCodeId, Refs.setAddress, Refs.set_entry.
  unfold Refs.entry at 1.
  rewrite lookup_insert_eq. simpl. now rewrite lookup_insert_eq.
Qed.

(** After [saveRefs] the primary file holds the snapshot, whatever the
    mirror paths are. *)
Lemma saveRefs_primary base copies (r : gmap string (gmap string RefEntry))
    (fs : gmap string (gmap string (gmap string RefEntry))) :
  Refs.saveRefs base copies r fs !! base = Some r.
Proof.
  unfold Refs.saveRefs. induction copies as [|p copies IH]; simpl.
  - apply lookup_insert_eq.
  - destruct (decide (p = base)) as [->|Hne].
    + apply lookup_insert_eq.
    + now rewrite lookup_insert_ne.
Qed.

Lemma saveRefs_mirror base copies (r : gmap string (gmap string RefEntry))
    (fs : gmap string (gmap string (gmap string RefEntry))) p :
  In p copies -> Refs.saveRefs base copies r fs !! p = Some r.
Proof.
  unfold Refs.saveRefs. induction copies as [|q copies IH]; simpl; [tauto|].
  intros Hin. destruct (decide (q = p)) as [->|Hne].
  - apply lookup_insert_eq.
  - rewrite lookup_insert_ne by assumption. apply IH. tauto.
Qed.

(** ** Running the methods *)

Lemma contains_occurs_in s2 s1 : contains s2 s1 -> occurs_in s1 s2 = true.
Proof.
  assert (Hpre : forall a b, starts_with a (a +:+ b) = true).
  { induction a as [|c a IH]; intros b; simpl; [reflexivity|].
    now rewrite Ascii.eqb_refl, IH. }
  assert (Hunfold : forall a b, starts_with a b = true -> occurs_in a b = true).
  { intros a b H. destruct b; simpl; rewrite H; reflexivity. }
  intros (before & after & ->).
  induction before as [|c before IH].
  - apply Hunfold, (Hpre s1 after).
  - simpl. rewrite IH. apply orb_true_r.
Qed.

Lemma append_empty_r s : s +:+ EmptyString = s.
Proof.
  induction s as [|c s IH]; [reflexivity|].
  change (String c (s +:+ EmptyString) = String c s). now f_equal.
Qed.

Lemma append_assoc_r a b c : (a +:+ b) +:+ c = a +:+ (b +:+ c).
Proof.
  induction a as [|x a IH]; [reflexivity|].
  change (String x ((a +:+ b) +:+ c) = String x (a +:+ (b +:+ c))). now f_equal.
Qed.

Lemma contains_refl s : contains s s.
Proof. exists EmptyString, EmptyString. now rewrite append_empty_r. Qed.

Lemma contains_app_r a b s : contains b s -> contains (a +:+ b) s.
Proof.
  intros (before & after & ->). exists (a +:+ before), after.
  now rewrite append_assoc_r.
Qed.

Section Running.
Variable rt : Runtime.
Variable w : World.
Variable config : Config.
Variable network : string.

Lemma raw_log_or_empty_Some info : raw_log_or_empty (Some info) = ti_raw_log info.
Proof.
  unfold raw_log_or_empty. simpl.
  destruct (String.eqb_spec (ti_raw_log info) EmptyString) as [->|]; reflexivity.
Qed.

(** The options the signer is asked to sign in [storeCode]. *)
Lemma storeCode_sign_Return contract migrateCodeId o st cwd0 tx st1 :
  storeCode_sign w config contract migrateCodeId (Some o) st = (Return (cwd0, tx), st1) ->
  exists buildInfo wasmByteCode,
    let contractFolder := path_join w [cwd st; src buildInfo] in
    let wasm := path_join w [contractFolder; "artifacts"; wasmByteCodeFilename w contract] in
    let options := {| opt_sequence := None;
                      opt_msgs := [storeCode_msg w migrateCodeId wasmByteCode];
                      opt_feeDenoms := None |} in
    contracts config !! contract = Some buildInfo /\
    chdir_result w contractFolder = None /\
    existsSync w wasm = true /\
    readFileSync_base64 w wasm = Return wasmByteCode /\
    createAndSignTx w options = Return tx /\
    cwd0 = cwd st /\
    st1 = {| cwd := contractFolder; refs := refs st; files := files st;
             trace := CreateAndSignTx options
                      :: SpinnerStart o ("Uploading bytecode for " +:+ contract +:+ "...")
                      :: trace st |}.
Proof.
  unfold storeCode_sign.
  destruct (contracts config !! contract) as [buildInfo|];
    [|destruct (inherited contract); discriminate].
  unfold bind, process_cwd, process_chdir, with_cwd.
  destruct (chdir_result w _) eqn:Hcd; [discriminate|].
  destruct (existsSync w _) eqn:Hex; simpl; [|discriminate].
  unfold bind, lift.
  destruct (readFileSync_base64 w _) as [code|] eqn:Hrd; [|discriminate].
  unfold signer_createAndSignTx, bind, emit, lift, ret. simpl.
  destruct (createAndSignTx w _) eqn:Hsig; [|discriminate].
  intros [= <- <- <-]. exists buildInfo, code. simpl. auto 10.
Qed.

Lemma storeCode_record_Return contract spinner cwd0 res st v st' :
  storeCode_record rt w config network contract spinner cwd0 res st = (Return v, st') ->
  exists o,
    spinner = Some o /\
    extract_code_id rt (raw_log_or_empty res) = Return v /\
    chdir_result w cwd0 = None /\
    st' = {| cwd := cwd0;
             refs := Refs.setCodeId network contract v (refs st);
             files := Refs.saveRefs (refs_base_path config) (refs_copy_refs_to config)
                        (Refs.setCodeId network contract v (refs st)) (files st);
             trace := SaveRefs (refs_base_path config) (refs_copy_refs_to config)
                      :: SetCodeId network contract v
                      :: SpinnerSucceed o
                           (Some ("Uploaded bytecode for " +:+ contract
                                  +:+ ", code id: " +:+ to_display v))
                      :: trace st |}.
Proof.
  unfold storeCode_record, try_catch, bind, lift, process_chdir, with_cwd.
  destruct (extract_code_id rt _) as [id|e] eqn:Hid.
  - destruct (chdir_result w cwd0) as [e|] eqn:Hcd.
    + destruct spinner; simpl; destruct (instanceof_SyntaxError e); discriminate.
    + destruct spinner as [o|]; simpl.
      * intros [= <- <-]. exists o. auto.
      * discriminate.
  - destruct spinner; simpl; destruct (instanceof_SyntaxError e); discriminate.
Qed.

Lemma storeCode_submit_Return contract o cwd0 tx st v st' :
  storeCode_submit rt w config network contract (Some o) cwd0 tx st = (Return v, st') ->
  exists result res,
    broadcastSync w tx = Return result /\
    br_code result = None /\
    waitForInclusionInBlock w (br_txhash result) = Return res /\
    storeCode_record rt w config network contract (Some o) cwd0 res
      {| cwd := cwd st; refs := refs st; files := files st;
         trace := SpinnerSucceed o None
                  :: WaitForInclusionInBlock (br_txhash result)
                  :: BroadcastSync tx :: trace st |}
    = (Return v, st').
Proof.
  unfold storeCode_submit, lcd_broadcastSync, wait_for_inclusion, bind, emit, lift.
  simpl.
  destruct (broadcastSync w tx) as [result|] eqn:Hb; [|discriminate].
  unfold has_code. destruct (br_code result) eqn:Hcode; simpl; [discriminate|].
  destruct (waitForInclusionInBlock w _) as [res|] eqn:Hw; [|discriminate].
  simpl. intros H. exists result, res. auto.
Qed.
End Running.

(** ** What a computation adds to the trace *)

Section Emits.
Context {A B : Type} (P : event -> Prop).

Lemma emits_only_ret (a : A) : emits_only P (ret a).
Proof. intros st o st' [= <- <-]. exists []. auto. Qed.

Lemma emits_only_throw e : emits_only P (@throw A e).
Proof. intros st o st' [= <- <-]. exists []. auto. Qed.

Lemma emits_only_lift (x : outcome A) : emits_only P (lift x).
Proof. intros st o st' [= <- <-]. exists []. auto. Qed.

Lemma emits_only_emit e : P e -> emits_only P (emit e).
Proof. intros He st o st' [= <- <-]. exists [e]. auto. Qed.

Lemma emits_only_bind (m : M A) (k : A -> M B) :
  emits_only P m -> (forall a, emits_only P (k a)) -> emits_only P (bind m k).
Proof.
  intros Hm Hk st o st'. unfold bind.
  destruct (m st) as [[a|e] st1] eqn:E; intros H.
  - destruct (Hm _ _ _ E) as (ev1 & T1 & F1).
    destruct (Hk a _ _ _ H) as (ev2 & T2 & F2).
    exists (ev2 ++ ev1). rewrite T2, T1, app_assoc. split; [reflexivity|].
    apply Forall_app; auto.
  - injection H as <- <-. eauto.
Qed.

Lemma emits_only_try_catch (m : M A) (h : js_error -> M A) :
  emits_only P m -> (forall e, emits_only P (h e)) -> emits_only P (try_catch m h).
Proof.
  intros Hm Hh st o st'. unfold try_catch.
  destruct (m st) as [[a|e] st1] eqn:E; intros H.
  - injection H as <- <-. eauto.
  - destruct (Hm _ _ _ E) as (ev1 & T1 & F1).
    destruct (Hh e _ _ _ H) as (ev2 & T2 & F2).
    exists (ev2 ++ ev1). rewrite T2, T1, app_assoc. split; [reflexivity|].
    apply Forall_app; auto.
Qed.
End Emits.

Section EmitsDeployer.
Variable rt : Runtime.
Variable w : World.
Variable config : Config.
Variable network : string.
Variable P : event -> Prop.

Lemma emits_only_chdir dir : emits_only P (process_chdir w dir).
Proof.
  intros st o st'. unfold process_chdir.
  destruct (chdir_result w dir); intros [= <- <-]; exists []; auto.
Qed.

Lemma emits_only_optional_call spinner call :
  (forall o, P (call o)) -> emits_only P (optional_call spinner call).
Proof.
  intros H. destruct spinner; simpl;
    [now apply emits_only_emit | apply emits_only_ret].
Qed.

Lemma emits_only_member_call spinner method call :
  (forall o, P (call o)) -> emits_only P (member_call rt spinner method call).
Proof.
  intros H. destruct spinner; simpl;
    [now apply emits_only_emit | apply emits_only_lift].
Qed.

Lemma emits_only_setCodeId contract v :
  P (SetCodeId network contract v) -> emits_only P (refs_setCodeId network contract v).
Proof. intros H st o st' [= <- <-]. exists [SetCodeId network contract v]. auto. Qed.

Lemma emits_only_setAddress contract v :
  P (SetAddress network contract v) -> emits_only P (refs_setAddress network contract v).
Proof. intros H st o st' [= <- <-]. exists [SetAddress network contract v]. auto. Qed.

Lemma emits_only_saveRefs :
  P (SaveRefs (refs_base_path config) (refs_copy_refs_to config)) ->
  emits_only P (refs_saveRefs config).
Proof. intros H st o st' [= <- <-]. eexists [_]. simpl. auto. Qed.

Lemma emits_only_broadcast tx :
  P (BroadcastSync tx) -> emits_only P (lcd_broadcastSync w tx).
Proof.
  intros H. apply emits_only_bind; [now apply emits_only_emit|].
  intros _. apply emits_only_lift.
Qed.

Lemma emits_only_wait txhash :
  P (WaitForInclusionInBlock txhash) -> emits_only P (wait_for_inclusion w txhash).
Proof.
  intros H. apply emits_only_bind; [now apply emits_only_emit|].
  intros _. apply emits_only_lift.
Qed.
End EmitsDeployer.

(** One step of a proof that a computation emits only events in [P]:
    close a leaf, peel a bind, or split on a scrutinee. *)
Ltac emits_step :=
  first
    [ apply emits_only_broadcast
    | apply emits_only_wait
    | apply emits_only_chdir
    | apply emits_only_optional_call; intros ?
    | apply emits_only_member_call; intros ?
    | apply emits_only_setCodeId
    | apply emits_only_setAddress
    | apply emits_only_saveRefs
    | apply emits_only_emit
    | apply emits_only_ret
    | apply emits_only_throw
    | apply emits_only_lift
    | apply emits_only_try_catch; [|intros ?]
    | apply emits_only_bind; [|intros ?]
    | match goal with
      | |- emits_only _ (if ?b then _ else _) => destruct b
      | |- emits_only _ (match ?x with _ => _ end) => destruct x
      end ].

Lemma storeCode_submit_emits rt w config network contract spinner cwd0 tx
    (P : event -> Prop) :
  (forall e, ~ is_sign_request e -> P e) ->
  emits_only P (storeCode_submit rt w config network contract spinner cwd0 tx).
Proof.
  intros HP. unfold storeCode_submit, storeCode_record.
  repeat emits_step; apply HP; simpl; tauto.
Qed.

Lemma storeCode_sign_requests w config contract migrateCodeId o st out st1 :
  storeCode_sign w config contract migrateCodeId (Some o) st = (out, st1) ->
  exists events,
    trace st1 = events ++ trace st /\
    forall options, In (CreateAndSignTx options) events ->
      exists buildInfo wasmByteCode,
        contracts config !! contract = Some buildInfo /\
        readFileSync_base64 w
          (path_join w [path_join w [cwd st; src buildInfo]; "artifacts";
                        wasmByteCodeFilename w contract]) = Return wasmByteCode /\
        options = {| opt_sequence := None;
                     opt_msgs := [storeCode_msg w migrateCodeId wasmByteCode];
                     opt_feeDenoms := None |}.
Proof.
  unfold storeCode_sign.
  destruct (contracts config !! contract) as [buildInfo|];
    [|destruct (inherited contract);
      (intros [= <- <-]; exists []; simpl; split; [reflexivity | tauto])].
  unfold bind, process_cwd, process_chdir, with_cwd.
  destruct (chdir_result w _);
    [intros [= <- <-]; exists []; simpl; split; [reflexivity | tauto]|].
  destruct (existsSync w _); simpl;
    [|intros [= <- <-]; exists []; simpl; split; [reflexivity | tauto]].
  unfold bind, lift.
  destruct (readFileSync_base64 w _) as [code|] eqn:Hrd;
    [|intros [= <- <-]; exists []; simpl; split; [reflexivity | tauto]].
  unfold signer_createAndSignTx, bind, emit, lift, ret. simpl.
  intros H.
  eexists [CreateAndSignTx _; SpinnerStart o _].
  split; [destruct (createAndSignTx w _); injection H as <- <-; reflexivity|].
  intros options [[= <-] | [[=] | []]]. exists buildInfo, code. auto.
Qed.

(** ** storeCode *)

(** C1.  A successful [storeCode] returns the value of the attribute
    [code_id] of the event [store_code] in the first entry of the raw log of
    the included transaction; before it returns it has written that value
    with [setCodeId network contract] and then persisted the store with
    [saveRefs], so that [getCodeId] and the primary file both show it. *)
Theorem storeCode_returns_logged_code_id
    rt w config network contract migrateCodeId spinner st v st' :
  storeCode rt w config network contract migrateCodeId spinner st = (Return v, st') ->
  exists tx result info log events,
    broadcastSync w tx = Return result /\
    waitForInclusionInBlock w (br_txhash result) = Return (Some info) /\
    JSON_parse rt (ti_raw_log info) = inr log /\
    logged_events log events /\
    event_attribute events "store_code" "code_id" v /\
    (exists o options,
       trace st' =
         SaveRefs (refs_base_path config) (refs_copy_refs_to config)
         :: SetCodeId network contract v
         :: SpinnerSucceed o (Some ("Uploaded bytecode for " +:+ contract
                                    +:+ ", code id: " +:+ to_display v))
         :: SpinnerSucceed o None
         :: WaitForInclusionInBlock (br_txhash result)
         :: BroadcastSync tx
         :: CreateAndSignTx options
         :: SpinnerStart o ("Uploading bytecode for " +:+ contract +:+ "...")
         :: trace st) /\
    refs st' = Refs.setCodeId network contract v (refs st) /\
    Refs.getCodeId (refs st') network contract = v /\
    files st' = Refs.saveRefs (refs_base_path config) (refs_copy_refs_to config)
                  (refs st') (files st) /\
    files st' !! refs_base_path config = Some (refs st').
Proof.
  unfold storeCode. intros H.
  assert (Hsp : exists o, default_param (ora "dots") spinner = Some o)
    by (destruct spinner; simpl; eauto).
  destruct Hsp as [o Hsp]. rewrite Hsp in H. unfold bind in H.
  destruct (storeCode_sign w config contract migrateCodeId (Some o) st)
    as [[[cwd0 tx]|e] st1] eqn:Hsign; [|discriminate].
  simpl in H.
  apply storeCode_sign_Return in Hsign
    as (buildInfo & code & _ & _ & _ & _ & _ & _ & ->).
  apply storeCode_submit_Return in H as (result & res & Hb & _ & Hw & H).
  apply storeCode_record_Return in H as (o' & [= <-] & Hid & _ & ->).
  destruct res as [info|].
  - rewrite raw_log_or_empty_Some in Hid.
    apply extract_code_id_Return in Hid as (log & events & Hlog & Hev & Hattr).
    exists tx, result, info, log, events. simpl.
    do 5 (split; [eassumption|]).
    split; [eauto|].
    split; [reflexivity|].
    split; [apply getCodeId_setCodeId|].
    split; [reflexivity | apply saveRefs_primary].
  - simpl in Hid. destruct (extract_code_id_empty rt) as [m Hm]. congruence.
Qed.

Lemma storeCode_returns_logged_code_id_witness :
  Scenario.upload None omitted Scenario.store_log
  = (Return (VStr "42"), snd (Scenario.upload None omitted Scenario.store_log)) /\
  Refs.getCodeId (refs (snd (Scenario.upload None omitted Scenario.store_log)))
    Scenario.network "vault" = VStr "42" /\
  files (snd (Scenario.upload None omitted Scenario.store_log)) !! "refs.json"
  = Some (refs (snd (Scenario.upload None omitted Scenario.store_log))).
Proof.
  assert (H : Scenario.upload None omitted Scenario.store_log
              = (Return (VStr "42"),
                 snd (Scenario.upload None omitted Scenario.store_log)))
    by (vm_compute; reflexivity).
  split; [exact H|].
  destruct (storeCode_returns_logged_code_id _ _ _ _ _ _ _ _ _ _ H)
    as (_ & _ & _ & _ & _ & _ & _ & _ & _ & _ & _ & _ & Hget & _ & Hfile).
  split; [exact Hget | exact Hfile].
Defined.

(** C3.  When the broadcast response to the signed transaction carries a
    non-zero error code, [storeCode] throws an error whose message contains
    the [raw_log] of the response.  The trace ends with the broadcast and
    the failing spinner: the waiter is not called, and the reference store
    and its files are as before. *)
Theorem storeCode_rejected_broadcast
    rt w config network contract migrateCodeId spinner st cwd0 tx st1 result code :
  storeCode_sign w config contract migrateCodeId
    (default_param (ora "dots") spinner) st = (Return (cwd0, tx), st1) ->
  broadcastSync w tx = Return result ->
  br_code result = Some code ->
  code <> 0 ->
  exists e st',
    storeCode rt w config network contract migrateCodeId spinner st = (Throw e, st') /\
    err_class e = ClsError /\
    contains (err_message e) (br_raw_log result) /\
    (exists o options,
       trace st' = SpinnerFail o None
                   :: BroadcastSync tx
                   :: CreateAndSignTx options
                   :: SpinnerStart o ("Uploading bytecode for " +:+ contract +:+ "...")
                   :: trace st) /\
    (forall txhash, In (WaitForInclusionInBlock txhash) (trace st') ->
                    In (WaitForInclusionInBlock txhash) (trace st)) /\
    refs st' = refs st /\
    files st' = files st.
Proof.
  intros Hsign Hb Hcode _.
  assert (Hsp : exists o, default_param (ora "dots") spinner = Some o)
    by (destruct spinner; simpl; eauto).
  destruct Hsp as [o Hsp]. rewrite Hsp in Hsign.
  unfold storeCode, bind. rewrite Hsp, Hsign. simpl.
  apply storeCode_sign_Return in Hsign
    as (buildInfo & wasm & _ & _ & _ & _ & _ & _ & ->).
  unfold storeCode_submit, lcd_broadcastSync, bind, emit, lift. simpl.
  rewrite Hb. unfold has_code. rewrite Hcode. simpl.
  eexists _, _. split; [reflexivity|]. simpl.
  split; [reflexivity|].
  split; [repeat apply contains_app_r; apply contains_refl|].
  split; [eauto|].
  split; [simpl; intros txhash [[=] | [[=] | [[=] | [[=] | H]]]]; exact H|].
  split; reflexivity.
Qed.

Lemma storeCode_rejected_broadcast_witness :
  exists e st',
    storeCode node (Scenario.world Scenario.rejected None) Scenario.config
      Scenario.network "vault" None omitted Scenario.start = (Throw e, st') /\
    contains (err_message e) (br_raw_log Scenario.rejected) /\
    refs st' = refs Scenario.start.
Proof.
  destruct (storeCode_rejected_broadcast node
              (Scenario.world Scenario.rejected None) Scenario.config
              Scenario.network "vault" None omitted Scenario.start
              "/work" Scenario.signed
              (snd (storeCode_sign (Scenario.world Scenario.rejected None)
                      Scenario.config "vault" None (Some (ora "dots")) Scenario.start))
              Scenario.rejected 13)
    as (e & st' & Hrun & _ & Hmsg & _ & _ & Hrefs & _).
  - vm_compute. reflexivity.
  - reflexivity.
  - reflexivity.
  - discriminate.
  - exists e, st'. auto.
Defined.

Lemma number_truthy_cases (n : float) :
  number_truthy n = true <-> is_zero n = false /\ is_nan n = false.
Proof.
  unfold number_truthy. destruct (is_zero n), (is_nan n); simpl; intuition congruence.
Qed.

Lemma storeCode_msg_cases w migrateCodeId wasmByteCode :
  (forall id, migrateCodeId = Some id -> is_zero id = false -> is_nan id = false ->
     storeCode_msg w migrateCodeId wasmByteCode
     = MsgMigrateCode (accAddress w) id wasmByteCode) /\
  (migrateCodeId = None \/
   (exists id, migrateCodeId = Some id /\ (is_zero id = true \/ is_nan id = true)) ->
     storeCode_msg w migrateCodeId wasmByteCode
     = MsgStoreCode (accAddress w) wasmByteCode).
Proof.
  split.
  - intros id -> Hz Hn. unfold storeCode_msg, number_truthy. now rewrite Hz, Hn.
  - intros [-> | (id & -> & H)]; [reflexivity|].
    unfold storeCode_msg, number_truthy.
    destruct H as [-> | ->]; [reflexivity|]. now rewrite orb_true_r.
Qed.

(** C8, as the code has it.  Whatever [storeCode] asks the signer to sign
    is a transaction of exactly one message: a migrate-code message carrying
    [migrateCodeId] when that is given and is truthy, that is, a number that
    is neither zero nor NaN; a store-code message when it is left out or is
    a zero or NaN; either way the message carries the base64 text read from
    the artifact path. *)
Theorem storeCode_signs_one_message
    rt w config network contract migrateCodeId spinner st out st' :
  storeCode rt w config network contract migrateCodeId spinner st = (out, st') ->
  exists events,
    trace st' = events ++ trace st /\
    forall options, In (CreateAndSignTx options) events ->
      exists buildInfo wasmByteCode,
        contracts config !! contract = Some buildInfo /\
        readFileSync_base64 w
          (path_join w [path_join w [cwd st; src buildInfo]; "artifacts";
                        wasmByteCodeFilename w contract]) = Return wasmByteCode /\
        (forall id, migrateCodeId = Some id ->
           is_zero id = false -> is_nan id = false ->
           opt_msgs options = [MsgMigrateCode (accAddress w) id wasmByteCode]) /\
        (migrateCodeId = None \/
         (exists id, migrateCodeId = Some id /\
                     (is_zero id = true \/ is_nan id = true)) ->
           opt_msgs options = [MsgStoreCode (accAddress w) wasmByteCode]).
Proof.
  unfold storeCode. intros H.
  assert (Hsp : exists o, default_param (ora "dots") spinner = Some o)
    by (destruct spinner; simpl; eauto).
  destruct Hsp as [o Hsp]. rewrite Hsp in H. unfold bind in H.
  destruct (storeCode_sign w config contract migrateCodeId (Some o) st)
    as [[signed|e] st1] eqn:Hsign.
  - destruct (storeCode_sign_requests _ _ _ _ _ _ _ _ Hsign) as (ev1 & T1 & Hreq).
    destruct (storeCode_submit_emits rt w config network contract (Some o)
                (fst signed) (snd signed) (fun e => ~ is_sign_request e)
                (fun e He => He) _ _ _ H) as (ev2 & T2 & Hnone).
    exists (ev2 ++ ev1). rewrite T2, T1, app_assoc. split; [reflexivity|].
    intros options Hin. apply in_app_or in Hin as [Hin | Hin].
    + rewrite Forall_forall in Hnone. apply list_elem_of_In, Hnone in Hin.
      simpl in Hin. tauto.
    + destruct (Hreq _ Hin) as (buildInfo & code & Hc & Hrd & ->).
      exists buildInfo, code. simpl.
      destruct (storeCode_msg_cases w migrateCodeId code) as [Hm Hs].
      repeat split; try assumption.
      * intros id E Hz Hn. now rewrite (Hm id E Hz Hn).
      * intros E. now rewrite (Hs E).
  - injection H as <- <-.
    destruct (storeCode_sign_requests _ _ _ _ _ _ _ _ Hsign) as (ev1 & T1 & Hreq).
    exists ev1. split; [assumption|].
    intros options Hin.
    destruct (Hreq _ Hin) as (buildInfo & code & Hc & Hrd & ->).
    exists buildInfo, code. simpl.
    destruct (storeCode_msg_cases w migrateCodeId code) as [Hm Hs].
    repeat split; try assumption.
    + intros id E Hz Hn. now rewrite (Hm id E Hz Hn).
    + intros E. now rewrite (Hs E).
Qed.

Lemma storeCode_signs_one_message_witness :
  exists options,
    In (CreateAndSignTx options)
       (trace (snd (Scenario.upload (Some 5%float) omitted Scenario.store_log))) /\
    opt_msgs options = [MsgMigrateCode "terra1signer" 5%float "AGFzbQEAAAA="].
Proof.
  destruct (storeCode_signs_one_message node
              (Scenario.world Scenario.accepted (Scenario.included Scenario.store_log))
              Scenario.config Scenario.network "vault" (Some 5%float) omitted
              Scenario.start
              (fst (Scenario.upload (Some 5%float) omitted Scenario.store_log))
              (snd (Scenario.upload (Some 5%float) omitted Scenario.store_log)))
    as (events & Htrace & Hreq).
  - vm_compute. reflexivity.
  - change (trace Scenario.start) with (@nil event) in Htrace.
    rewrite app_nil_r in Htrace. rewrite Htrace.
    assert (Hin : In (CreateAndSignTx
                        {| opt_sequence := None;
                           opt_msgs := [MsgMigrateCode "terra1signer" 5%float "AGFzbQEAAAA="];
                           opt_feeDenoms := None |}) events)
      by (rewrite <- Htrace; vm_compute; tauto).
    destruct (Hreq _ Hin) as (buildInfo & code & _ & _ & Hmigrate & _).
    eexists. split; [exact Hin|]. reflexivity.
Defined.

(** C8 as stated fails for [migrateCodeId = 0]: the one message signed is a
    store-code message, not a migrate-code message carrying 0. *)
Lemma storeCode_migrate_zero_stores_new_code :
  trace (snd (Scenario.upload (Some 0%float) omitted Scenario.store_log))
  = [ SaveRefs "refs.json" ["app/refs.json"];
      SetCodeId "testnet" "vault" (VStr "42");
      SpinnerSucceed (ora "dots") (Some "Uploaded bytecode for vault, code id: 42");
      SpinnerSucceed (ora "dots") None;
      WaitForInclusionInBlock "7A1F";
      BroadcastSync Scenario.signed;
      CreateAndSignTx {| opt_sequence := None;
                         opt_msgs := [MsgStoreCode "terra1signer" "AGFzbQEAAAA="];
                         opt_feeDenoms := None |};
      SpinnerStart (ora "dots") "Uploading bytecode for vault..." ].
Proof. vm_compute. reflexivity. Qed.

(** NaN is falsy as well: handed NaN, [storeCode] has a store-code message
    signed. *)
Example storeCode_migrate_nan_stores_new_code :
  In (CreateAndSignTx {| opt_sequence := None;
                         opt_msgs := [MsgStoreCode "terra1signer" "AGFzbQEAAAA="];
                         opt_feeDenoms := None |})
     (trace (snd (Scenario.upload (Some nan) omitted Scenario.store_log))).
Proof. vm_compute. tauto. Qed.




(** ** instantiate *)

Section RunningInstantiate.
Variable rt : Runtime.
Variable w : World.
Variable config : Config.
Variable network : string.




End RunningInstantiate.

(** C2.  When the reference store has no code id for the contract,
    [instantiate] throws the error saying so and leaves the state as it
    was: nothing is added to the trace (no call on the signer, the ledger
    client or the waiter) and the reference store is untouched. *)
Theorem instantiate_without_code_id
    rt w config network contract msg options spinner st :
  Refs.getCodeId (refs st) network contract = VUndefined ->
  instantiate rt w config network contract msg options spinner st
  = (Throw (Error ("Contract " +:+ contract +:+ " code id not found in refs.")), st).
Proof.
  intros H. unfold instantiate, bind, refs_getCodeId. rewrite H. reflexivity.
Qed.

Lemma instantiate_without_code_id_witness :
  instantiate node (Scenario.world Scenario.accepted None) Scenario.config
    Scenario.network "vault" VNull None omitted Scenario.start
  = (Throw (Error "Contract vault code id not found in refs."), Scenario.start).
Proof.
  apply (instantiate_without_code_id node (Scenario.world Scenario.accepted None)
           Scenario.config Scenario.network "vault" VNull None omitted
           Scenario.start).
  vm_compute. reflexivity.
Defined.



(** When both events are logged, the address comes from the
    [instantiate_contract] event. *)
Example instantiate_primary_event :
  fst (Scenario.create Scenario.accepted None Scenario.instantiate_log)
  = Return {| res_address := VStr "terra1vault";
              res_raw_log := Scenario.instantiate_log |}.
Proof. vm_compute. reflexivity. Qed.

(** The fallback: with no [instantiate_contract] event the address comes
    from the [instantiate] event. *)
Example instantiate_fallback_event :
  fst (Scenario.create Scenario.accepted None Scenario.fallback_log)
  = Return {| res_address := VStr "terra1abc";
              res_raw_log := Scenario.fallback_log |}.
Proof. vm_compute. reflexivity. Qed.

(** ** Failures to read the log *)




(** C6 at a failing input: the raw log of the included transaction is
    well-formed but has no event.  [storeCode] throws an [Error] and
    [instantiate] lets the engine's [TypeError] through; neither message
    contains the raw log. *)
Lemma parse_errors_without_raw_log :
  (exists e,
     fst (Scenario.upload None omitted Scenario.eventless_log) = Throw e /\
     err_message e
     = "Unexpcted Error: TypeError: Cannot read properties of undefined (reading 'attributes')" /\
     ~ contains (err_message e) Scenario.eventless_log) /\
  (exists e,
     fst (Scenario.create Scenario.accepted None Scenario.eventless_log) = Throw e /\
     err_message e = "Cannot read properties of undefined (reading 'attributes')" /\
     ~ contains (err_message e) Scenario.eventless_log).
Proof.
  split; eexists; (split; [vm_compute; reflexivity|]); (split; [reflexivity|]);
    intros H; apply contains_occurs_in in H; vm_compute in H; discriminate.
Qed.

(** ** The account sequence *)

Lemma manual_sequence_given w options n st :
  optional_member options sequence = Some n -> number_truthy n = true ->
  manual_sequence w options st = (Return n, st).
Proof. intros E Hn. unfold manual_sequence. now rewrite E, Hn. Qed.

Lemma manual_sequence_absent w options :
  optional_member options sequence = None ->
  manual_sequence w options = signer_sequence_call w.
Proof. intros E. unfold manual_sequence. now rewrite E. Qed.

Lemma manual_sequence_falsy w options n :
  optional_member options sequence = Some n -> number_truthy n = false ->
  manual_sequence w options = signer_sequence_call w.
Proof. intros E Hn. unfold manual_sequence. now rewrite E, Hn. Qed.

Lemma instantiate_submit_emits rt w config network contract spinner tx
    (P : event -> Prop) :
  (forall e, ~ is_sign_request e -> e <> SignerSequence -> P e) ->
  emits_only P (instantiate_submit rt w config network contract spinner tx).
Proof.
  intros HP. unfold instantiate_submit, instantiate_parse.
  repeat emits_step; apply HP; simpl; (tauto || discriminate).
Qed.

(** What [instantiate] signs after the sequence has been settled as [n]
    in a state with trace [t]. *)
Lemma instantiate_signs_with rt w config network contract msg options o codeId n
    st out st' :
  bind (signer_createAndSignTx w (instantiate_tx_options w codeId msg options n))
       (instantiate_submit rt w config network contract (Some o)) st = (out, st') ->
  exists events,
    trace st' = events ++ trace st /\
    ~ In SignerSequence events /\
    forall request, In (CreateAndSignTx request) events -> opt_sequence request = Some n.
Proof.
  unfold bind at 1. unfold signer_createAndSignTx, bind at 1, emit, lift.
  destruct (createAndSignTx w _) as [tx|e].
  - intros H.
    destruct (instantiate_submit_emits rt w config network contract (Some o) tx
                (fun e => ~ is_sign_request e /\ e <> SignerSequence)
                (fun e H1 H2 => conj H1 H2) _ _ _ H) as (ev & T & Hnone).
    simpl in T. rewrite Forall_forall in Hnone.
    eexists (ev ++ [_]). rewrite <- app_assoc. split; [exact T|]. split.
    + intros Hin. apply in_app_or in Hin as [Hin | [[=] | []]].
      apply list_elem_of_In, Hnone in Hin. tauto.
    + intros request Hin. apply in_app_or in Hin as [Hin | [[= <-] | []]].
      * apply list_elem_of_In, Hnone in Hin. simpl in Hin. tauto.
      * reflexivity.
  - intros [= <- <-]. simpl. eexists [_]. split; [reflexivity|]. split.
    + intros [[=] | []].
    + intros request [[= <-] | []]. reflexivity.
Qed.

(** A supplied sequence that is neither zero nor NaN is the one signed
    with, and the signer is not asked for its own. *)
Lemma instantiate_sequence_given
    rt w config network contract msg options spinner n st out st' :
  optional_member options sequence = Some n -> number_truthy n = true ->
  instantiate rt w config network contract msg options spinner st = (out, st') ->
  exists events,
    trace st' = events ++ trace st /\
    ~ In SignerSequence events /\
    forall request, In (CreateAndSignTx request) events -> opt_sequence request = Some n.
Proof.
  intros Hgiven Hn. unfold instantiate.
  assert (Hsp : exists o, default_param (ora "dots") spinner = Some o)
    by (destruct spinner; simpl; eauto).
  destruct Hsp as [o ->].
  unfold bind at 1. unfold refs_getCodeId.
  destruct (negb (truthy _)).
  { intros [= <- <-]. exists []. split; [reflexivity|]. split; [tauto | intros ? []]. }
  simpl. unfold bind at 1 2. unfold emit.
  rewrite (manual_sequence_given _ _ _ _ Hgiven Hn).
  intros H. apply instantiate_signs_with in H as (ev & T & Hseq & Hsign).
  simpl in T. eexists (ev ++ [_]). rewrite <- app_assoc. split; [exact T|]. split.
  - intros Hin. apply in_app_or in Hin as [Hin | [[=] | []]]. tauto.
  - intros request Hin. apply in_app_or in Hin as [Hin | [[=] | []]]. auto.
Qed.

(** Without a supplied sequence, the one signed with is the one the signer
    answered. *)
Lemma instantiate_sequence_absent
    rt w config network contract msg options spinner st out st' :
  optional_member options sequence = None ->
  instantiate rt w config network contract msg options spinner st = (out, st') ->
  exists events,
    trace st' = events ++ trace st /\
    forall request, In (CreateAndSignTx request) events ->
      In SignerSequence events /\
      exists n, signer_sequence w = Return n /\ opt_sequence request = Some n.
Proof.
  intros Habsent. unfold instantiate.
  assert (Hsp : exists o, default_param (ora "dots") spinner = Some o)
    by (destruct spinner; simpl; eauto).
  destruct Hsp as [o ->].
  unfold bind at 1. unfold refs_getCodeId.
  destruct (negb (truthy _)).
  { intros [= <- <-]. exists []. split; [reflexivity | intros ? []]. }
  simpl. unfold bind at 1 2. unfold emit.
  rewrite (manual_sequence_absent _ _ Habsent).
  unfold signer_sequence_call, bind at 1, emit, lift.
  destruct (signer_sequence w) as [n|e] eqn:Hseq.
  - intros H. apply instantiate_signs_with in H as (ev & T & _ & Hsign).
    simpl in T. eexists (ev ++ [_; _]). rewrite <- app_assoc. split; [exact T|].
    intros request Hin. split; [apply in_or_app; right; simpl; auto|].
    exists n. split; [reflexivity|].
    apply in_app_or in Hin as [Hin | [[=] | [[=] | []]]]. auto.
  - intros [= <- <-]. simpl. eexists [_; _]. split; [reflexivity|].
    intros request [[=] | [[=] | []]].
Qed.

(** C7 at a failing input: with [sequence: 0] supplied, where the signer's
    own sequence is 7, the signer is asked for its sequence and the
    transaction is signed with 7. *)
Lemma instantiate_sequence_zero_queries_signer :
  trace (snd (Scenario.create Scenario.accepted
                (Some {| sequence := Some 0%float; admin := None; coins := None;
                         label := Some "v1" |})
                Scenario.instantiate_log))
  = [ SaveRefs "refs.json" ["app/refs.json"];
      SetAddress "testnet" "vault" (VStr "terra1vault");
      SpinnerSucceed (ora "dots") (Some "Instantiated vault with address terra1vault");
      SpinnerSucceed (ora "dots") None;
      WaitForInclusionInBlock "7A1F";
      BroadcastSync Scenario.signed;
      CreateAndSignTx
        {| opt_sequence := Some 7%float;
           opt_msgs := [MsgInstantiateContract "terra1signer" None (Some 42)
                          (VObj [("owner", VStr "x")]) None "v1"];
           opt_feeDenoms := Some ["uluna"] |};
      SignerSequence;
      SpinnerStart (ora "dots") "Instantiating vault with code id 42..." ].
Proof. vm_compute. reflexivity. Qed.

(** ** The broadcast response in instantiate *)

Lemma bind_ext {A B} (m : M A) (k k' : A -> M B) st :
  (forall a s, k a s = k' a s) -> bind m k st = bind m k' st.
Proof. intros H. unfold bind. destruct (m st) as [[a|e] s]; [apply H | reflexivity]. Qed.

Lemma instantiate_submit_with_broadcast_code rt w config network contract spinner tx f st :
  instantiate_submit rt (with_broadcast_code f w) config network contract spinner tx st
  = instantiate_submit rt w config network contract spinner tx st.
Proof.
  unfold instantiate_submit, lcd_broadcastSync.
  unfold bind at 1 2 6 7. unfold emit, lift. simpl.
  destruct (broadcastSync w tx) as [result|e]; reflexivity.
Qed.

Lemma instantiate_with_broadcast_code rt w config network contract msg options spinner f st :
  instantiate rt (with_broadcast_code f w) config network contract msg options spinner st
  = instantiate rt w config network contract msg options spinner st.
Proof.
  unfold instantiate. apply bind_ext. intros codeId s.
  destruct (negb (truthy codeId)); [reflexivity|].
  apply bind_ext. intros _ s1.
  apply bind_ext. intros n s2.
  apply bind_ext. intros tx s3.
  apply instantiate_submit_with_broadcast_code.
Qed.

Lemma instantiate_submit_waits rt w config network contract spinner tx st out st' :
  instantiate_submit rt w config network contract spinner tx st = (out, st') ->
  exists events,
    trace st' = events ++ trace st /\
    (forall tx', In (BroadcastSync tx') events -> tx' = tx) /\
    (forall result, broadcastSync w tx = Return result ->
                    In (WaitForInclusionInBlock (br_txhash result)) events).
Proof.
  unfold instantiate_submit, lcd_broadcastSync, wait_for_inclusion.
  unfold bind at 1 2 3 4. unfold emit, lift. simpl.
  destruct (broadcastSync w tx) as [result|e] eqn:Hb.
  - destruct (waitForInclusionInBlock w _) as [res|e] eqn:Hw.
    + intros H.
      match type of H with
      | bind ?m ?k ?s = _ =>
          assert (Hrest : emits_only (fun e => ~ is_broadcast e) (bind m k))
      end.
      { repeat emits_step; simpl; tauto. }
      destruct (Hrest _ _ _ H) as (ev & T & Hnone). simpl in T.
      exists (ev ++ [WaitForInclusionInBlock (br_txhash result); BroadcastSync tx]).
      rewrite <- app_assoc. split; [exact T|]. split.
      * intros tx' Hin. apply in_app_or in Hin as [Hin | Hin].
        -- rewrite Forall_forall in Hnone.
           apply list_elem_of_In, Hnone in Hin. simpl in Hin. tauto.
        -- destruct Hin as [[=] | [[= <-] | []]]. reflexivity.
      * intros result' [= <-]. apply in_or_app. right. simpl. auto.
    + intros [= <- <-]. simpl.
      eexists [_; _]. split; [reflexivity|]. split.
      * intros tx' [[=] | [[= <-] | []]]. reflexivity.
      * intros result' [= <-]. simpl. auto.
  - intros [= <- <-]. simpl.
    eexists [_]. split; [reflexivity|]. split.
    + intros tx' [[= <-] | []]. reflexivity.
    + discriminate.
Qed.

(** C9.  [instantiate] never looks at the error code of the broadcast
    response: rewriting the code (and code space) of every response changes
    neither its outcome nor its final state, and whenever it has broadcast a
    transaction and got a response, rejected or not, it has gone on to call
    the waiter on the transaction hash of that response. *)
Theorem instantiate_ignores_broadcast_code
    rt w config network contract msg options spinner st out st' :
  instantiate rt w config network contract msg options spinner st = (out, st') ->
  (forall f,
     instantiate rt (with_broadcast_code f w) config network contract msg options
       spinner st = (out, st')) /\
  exists events,
    trace st' = events ++ trace st /\
    forall tx result,
      In (BroadcastSync tx) events ->
      broadcastSync w tx = Return result ->
      In (WaitForInclusionInBlock (br_txhash result)) events.
Proof.
  intros H. split.
  - intros f. now rewrite instantiate_with_broadcast_code.
  - revert H. unfold instantiate.
    assert (Hsp : exists o, default_param (ora "dots") spinner = Some o)
      by (destruct spinner; simpl; eauto).
    destruct Hsp as [o ->].
    unfold bind at 1. unfold refs_getCodeId.
    destruct (negb (truthy _));
      [intros [= <- <-]; exists []; split; [reflexivity | intros ? ? []]|].
    simpl. unfold bind at 1 2. unfold emit.
    match goal with
    | |- context [manual_sequence w options ?s] =>
        assert (Hseq : emits_only (fun e => ~ is_broadcast e) (manual_sequence w options));
        [|destruct (manual_sequence w options s) as [[n|e] s1] eqn:Hn]
    end.
    { unfold manual_sequence, signer_sequence_call.
      repeat emits_step; simpl; tauto. }
    + destruct (Hseq _ _ _ Hn) as (ev1 & T1 & N1). simpl in T1.
      unfold bind at 1. unfold signer_createAndSignTx, bind at 1, emit, lift.
      destruct (createAndSignTx w _) as [tx|e] eqn:Hsig.
      * intros H.
        destruct (instantiate_submit_waits _ _ _ _ _ _ _ _ _ _ H)
          as (ev2 & T2 & Honly & Hwait).
        simpl in T2.
        eexists (ev2 ++ _ :: ev1 ++ [_]).
        split; [rewrite T2, T1; repeat (rewrite <- app_assoc; simpl); reflexivity|].
        intros tx' result Hin Hb. apply in_or_app. left.
        apply in_app_or in Hin as [Hin | Hin].
        -- apply Honly in Hin as ->. now apply Hwait.
        -- exfalso. destruct Hin as [[=] | Hin].
           apply in_app_or in Hin as [Hin | [[=] | []]].
           rewrite Forall_forall in N1.
           apply list_elem_of_In, N1 in Hin. simpl in Hin. tauto.
      * intros [= <- <-]. simpl.
        eexists (_ :: ev1 ++ [_]).
        split; [rewrite T1; simpl; rewrite <- app_assoc; reflexivity|].
        intros tx' result Hin. exfalso. destruct Hin as [[=] | Hin].
        apply in_app_or in Hin as [Hin | [[=] | []]].
        rewrite Forall_forall in N1.
        apply list_elem_of_In, N1 in Hin. simpl in Hin. tauto.
    + destruct (Hseq _ _ _ Hn) as (ev1 & T1 & N1). simpl in T1.
      intros [= <- <-].
      eexists (ev1 ++ [_]).
      split; [rewrite T1; rewrite <- app_assoc; reflexivity|].
      intros tx' result Hin. exfalso.
      apply in_app_or in Hin as [Hin | [[=] | []]].
      rewrite Forall_forall in N1.
      apply list_elem_of_In, N1 in Hin. simpl in Hin. tauto.
Qed.

Lemma instantiate_ignores_broadcast_code_witness :
  br_code Scenario.rejected = Some 13 /\
  In (WaitForInclusionInBlock "7A1F")
     (trace (snd (Scenario.create Scenario.rejected None Scenario.instantiate_log))) /\
  Scenario.create Scenario.accepted None Scenario.instantiate_log
  = Scenario.create Scenario.rejected None Scenario.instantiate_log.
Proof.
  split; [reflexivity|].
  destruct (instantiate_ignores_broadcast_code node
              (Scenario.world Scenario.rejected
                 (Scenario.included Scenario.instantiate_log))
              Scenario.config Scenario.network "vault"
              (VObj [("owner", VStr "x")]) None omitted Scenario.uploaded
              (fst (Scenario.create Scenario.rejected None Scenario.instantiate_log))
              (snd (Scenario.create Scenario.rejected None Scenario.instantiate_log)))
    as (Hsame & events & Htrace & Hwait).
  - vm_compute. reflexivity.
  - split.
    + change (trace Scenario.uploaded) with (@nil event) in Htrace.
      rewrite app_nil_r in Htrace. rewrite Htrace.
      apply (Hwait Scenario.signed Scenario.rejected); [|reflexivity].
      rewrite <- Htrace. vm_compute. tauto.
    + specialize (Hsame (fun _ => (None, None))).
      unfold Scenario.create at 1.
      etransitivity; [|etransitivity; [exact Hsame|]].
      * reflexivity.
      * vm_compute. reflexivity.
Defined.

(** * Further properties *)

(** ** How storeCode fails *)

Lemma grown_by_nil P t : grown_by P t t.
Proof. exists []. auto. Qed.

Lemma grown_by_cons (P : event -> Prop) t t' e :
  P e -> grown_by P t t' -> grown_by P t (e :: t').
Proof. intros He (ev & -> & H). exists (e :: ev). auto. Qed.

Lemma grown_by_trans P t1 t2 t3 :
  grown_by P t1 t2 -> grown_by P t2 t3 -> grown_by P t1 t3.
Proof.
  intros (e1 & -> & H1) (e2 & -> & H2). exists (e2 ++ e1).
  rewrite app_assoc. split; [reflexivity | now apply Forall_app].
Qed.

(** Close a goal [grown_by P t (e1 :: ... :: t)] whose events are plainly
    in [P]. *)
Ltac grow :=
  repeat (apply grown_by_cons; [simpl; tauto|]); apply grown_by_nil.

(** What the first half of [storeCode] leaves behind, however it ends. *)
Lemma storeCode_sign_outcome w config contract migrateCodeId o st out st1 :
  storeCode_sign w config contract migrateCodeId (Some o) st = (out, st1) ->
  refs st1 = refs st /\ files st1 = files st /\
  grown_by (fun e => ~ is_store_write e) (trace st) (trace st1) /\
  (forall buildInfo,
     contracts config !! contract = Some buildInfo ->
     chdir_result w (path_join w [cwd st; src buildInfo]) = None ->
     cwd st1 = path_join w [cwd st; src buildInfo]) /\
  (forall cwd0 tx, out = Return (cwd0, tx) -> cwd0 = cwd st).
Proof.
  unfold storeCode_sign.
  destruct (contracts config !! contract) as [buildInfo|].
  2:{ destruct (inherited contract);
        (intros [= <- <-]; repeat split; [grow | discriminate | discriminate]). }
  unfold bind, process_cwd, process_chdir, with_cwd.
  destruct (chdir_result w _) eqn:Hcd.
  { intros [= <- <-]. repeat split; [grow | | discriminate].
    intros b [= <-]. congruence. }
  assert (Hfolder : forall b : BuildInfo,
            Some buildInfo = Some b ->
            path_join w [cwd st; src buildInfo] = path_join w [cwd st; src b])
    by (intros b [= <-]; reflexivity).
  destruct (existsSync w _); simpl.
  2:{ intros [= <- <-]. simpl. repeat split; [grow | auto | discriminate]. }
  unfold bind, lift.
  destruct (readFileSync_base64 w _).
  2:{ intros [= <- <-]. simpl. repeat split; [grow | auto | discriminate]. }
  unfold signer_createAndSignTx, bind, emit, lift, ret. simpl.
  destruct (createAndSignTx w _); intros [= <- <-]; simpl;
    (repeat split; [grow | auto | congruence]).
Qed.

(** What the second half of [storeCode] leaves behind: on return the
    process is back in [cwd0]; on a throw it is where it was and the store
    is as it was. *)
Lemma storeCode_submit_outcome rt w config network contract o cwd0 tx st out st' :
  storeCode_submit rt w config network contract (Some o) cwd0 tx st = (out, st') ->
  match out with
  | Return _ => cwd st' = cwd0
  | Throw _ =>
      cwd st' = cwd st /\ refs st' = refs st /\ files st' = files st /\
      grown_by (fun e => ~ is_store_write e) (trace st) (trace st')
  end.
Proof.
  unfold storeCode_submit, lcd_broadcastSync, wait_for_inclusion, bind, emit, lift.
  simpl.
  destruct (broadcastSync w tx) as [result|];
    [|intros [= <- <-]; simpl; repeat split; grow].
  destruct (has_code result); simpl;
    [intros [= <- <-]; simpl; repeat split; grow|].
  destruct (waitForInclusionInBlock w _) as [res|];
    [|intros [= <- <-]; simpl; repeat split; grow].
  simpl.
  unfold storeCode_record, try_catch, bind, lift, process_chdir, with_cwd.
  destruct (extract_code_id rt _) as [v|e].
  - destruct (chdir_result w cwd0) as [e|]; simpl.
    + destruct (instanceof_SyntaxError e); intros [= <- <-]; simpl;
        repeat split; grow.
    + intros [= <- <-]. reflexivity.
  - simpl. destruct (instanceof_SyntaxError e); intros [= <- <-]; simpl;
      repeat split; grow.
Qed.

(** X1.  [storeCode] on a name the configuration has no entry for throws
    before it does anything: the working directory, the store and the
    trace are as they were.  What it throws is the error that says the
    build information was not found, unless the name is one that
    [Object.prototype] answers to ([toString], [constructor], ...): then
    the check of line 119 passes and what is thrown is the [TypeError] of
    [path.join] for a source folder that is [undefined]. *)
Theorem storeCode_unknown_contract
    rt w config network contract migrateCodeId spinner st :
  contracts config !! contract = None ->
  storeCode rt w config network contract migrateCodeId spinner st
  = (Throw (if inherited contract
            then TypeError (path_undefined_message w)
            else Error ("Contract " +:+ contract
                        +:+ " build information not found in config file.")),
     st).
Proof.
  intros H. unfold storeCode, bind, storeCode_sign. rewrite H.
  destruct (inherited contract); reflexivity.
Qed.

Lemma storeCode_unknown_contract_witness :
  storeCode node (Scenario.world Scenario.accepted None) Scenario.config
    Scenario.network "bank" None omitted Scenario.start
  = (Throw (Error "Contract bank build information not found in config file."),
     Scenario.start).
Proof.
  apply (storeCode_unknown_contract node (Scenario.world Scenario.accepted None)
           Scenario.config Scenario.network "bank" None omitted Scenario.start).
  vm_compute. reflexivity.
Defined.

(** A name the configuration does not hold but [Object.prototype] does. *)
Example storeCode_inherited_name :
  storeCode node (Scenario.world Scenario.accepted None) Scenario.config
    Scenario.network "toString" None omitted Scenario.start
  = (Throw (TypeError (json_text
       "The 'path' argument must be of type string. Received undefined")),
     Scenario.start).
Proof. vm_compute. reflexivity. Qed.

(** X2.  When the bytecode file is not in the artifacts folder, [storeCode]
    throws the error that names the file it looked for.  Nothing was asked
    of the spinner, the signer or the ledger, and the store is as it was,
    but the process has been moved into the folder of the contract and
    stays there. *)
Theorem storeCode_missing_artifact
    rt w config network contract migrateCodeId spinner st buildInfo :
  let contractFolder := path_join w [cwd st; src buildInfo] in
  let wasm := path_join w [contractFolder; "artifacts";
                           wasmByteCodeFilename w contract] in
  contracts config !! contract = Some buildInfo ->
  chdir_result w contractFolder = None ->
  existsSync w wasm = false ->
  storeCode rt w config network contract migrateCodeId spinner st
  = (Throw (Error ("WASM file " +:+ DQUOTE +:+ wasm +:+ DQUOTE
                   +:+ " not found in artifacts folder")),
     {| cwd := contractFolder; refs := refs st; files := files st;
        trace := trace st |}).
Proof.
  intros contractFolder wasm Hc Hcd Hex.
  unfold storeCode, bind at 1, storeCode_sign. rewrite Hc.
  unfold bind, process_cwd, process_chdir, with_cwd.
  fold contractFolder. rewrite Hcd. fold wasm. rewrite Hex. reflexivity.
Qed.

Lemma storeCode_missing_artifact_witness :
  storeCode node (Scenario.world Scenario.accepted None) Scenario.config
    Scenario.network "vault" None omitted
    {| cwd := "/elsewhere"; refs := ∅; files := ∅; trace := [] |}
  = (Throw (Error ("WASM file " +:+ DQUOTE
                   +:+ "/elsewhere/contracts/vault/artifacts/vault.wasm"
                   +:+ DQUOTE +:+ " not found in artifacts folder")),
     {| cwd := "/elsewhere/contracts/vault"; refs := ∅; files := ∅; trace := [] |}).
Proof.
  apply (storeCode_missing_artifact node (Scenario.world Scenario.accepted None)
           Scenario.config Scenario.network "vault" None omitted
           {| cwd := "/elsewhere"; refs := ∅; files := ∅; trace := [] |}
           {| src := "contracts/vault" |}).
  - vm_compute. reflexivity.
  - reflexivity.
  - vm_compute. reflexivity.
Defined.



(** In the model, where a write to the store cannot itself fail, a
    [storeCode] that throws has not written to the reference store: no
    [setCodeId] and no [saveRefs] is among the calls it made, and the store
    and its files are as they were. *)
Theorem storeCode_failure_keeps_store
    rt w config network contract migrateCodeId spinner st e st' :
  storeCode rt w config network contract migrateCodeId spinner st = (Throw e, st') ->
  grown_by (fun ev => ~ is_store_write ev) (trace st) (trace st') /\
  refs st' = refs st /\
  files st' = files st.
Proof.
  unfold storeCode.
  assert (Hsp : exists o, default_param (ora "dots") spinner = Some o)
    by (destruct spinner; simpl; eauto).
  destruct Hsp as [o ->]. unfold bind.
  destruct (storeCode_sign w config contract migrateCodeId (Some o) st)
    as [[[cwd0 tx]|e0] st1] eqn:Hsign;
    destruct (storeCode_sign_outcome _ _ _ _ _ _ _ _ Hsign) as (Hr & Hf & Hg & _).
  - simpl. intros H. apply storeCode_submit_outcome in H as (_ & Hr' & Hf' & Hg').
    split; [eapply grown_by_trans; eassumption|]. split; congruence.
  - intros [= <- <-]. auto.
Qed.

Lemma storeCode_failure_keeps_store_witness :
  refs (snd (Scenario.upload None omitted Scenario.eventless_log)) = ∅.
Proof.
  destruct (storeCode_failure_keeps_store node
              (Scenario.world Scenario.accepted
                 (Scenario.included Scenario.eventless_log))
              Scenario.config Scenario.network "vault" None omitted Scenario.start
              (Error "Unexpcted Error: TypeError: Cannot read properties of undefined (reading 'attributes')")
              (snd (Scenario.upload None omitted Scenario.eventless_log)))
    as (_ & Hrefs & _).
  - vm_compute. reflexivity.
  - exact Hrefs.
Defined.

(** X4.  An exception of the ledger client or of the waiter passes through
    [storeCode] as it is: when the broadcast throws, or the broadcast is
    accepted and the waiter throws, [storeCode] throws that very exception,
    and the last thing in the trace is the call that threw, so the spinner
    was told neither success nor failure. *)
Theorem storeCode_ledger_errors_pass_through
    rt w config network contract migrateCodeId spinner st cwd0 tx st1 e :
  storeCode_sign w config contract migrateCodeId
    (default_param (ora "dots") spinner) st = (Return (cwd0, tx), st1) ->
  broadcastSync w tx = Throw e \/
  (exists result,
     broadcastSync w tx = Return result /\ br_code result = None /\
     waitForInclusionInBlock w (br_txhash result) = Throw e) ->
  exists st',
    storeCode rt w config network contract migrateCodeId spinner st = (Throw e, st') /\
    (trace st' = BroadcastSync tx :: trace st1 \/
     exists result,
       broadcastSync w tx = Return result /\
       trace st' = WaitForInclusionInBlock (br_txhash result)
                   :: BroadcastSync tx :: trace st1).
Proof.
  intros Hsign Hthrow.
  assert (Hsp : exists o, default_param (ora "dots") spinner = Some o)
    by (destruct spinner; simpl; eauto).
  destruct Hsp as [o Hsp]. rewrite Hsp in Hsign.
  unfold storeCode, bind. rewrite Hsp, Hsign. simpl.
  unfold storeCode_submit, lcd_broadcastSync, wait_for_inclusion, bind, emit, lift.
  simpl.
  destruct Hthrow as [Hb | (result & Hb & Hcode & Hw)]; rewrite Hb.
  - eexists. split; [reflexivity|]. left. reflexivity.
  - unfold has_code. rewrite Hcode. simpl. rewrite Hw.
    eexists. split; [reflexivity|]. right. exists result. auto.
Qed.

Lemma storeCode_ledger_errors_pass_through_witness :
  fst (storeCode node
         {| process_arch := "x64"; path_join := Scenario.join;
            path_undefined_message := Scenario.node_path_undefined_message;
            chdir_result := fun _ => None;
            existsSync := fun _ => true;
            readFileSync_base64 := fun _ => Return "AGFzbQEAAAA=";
            accAddress := "terra1signer"; signer_sequence := Return 7%float;
            createAndSignTx := fun _ => Return Scenario.signed;
            broadcastSync := fun _ => Throw (Error "connect ECONNREFUSED");
            waitForInclusionInBlock := fun _ => Return None |}
         Scenario.config Scenario.network "vault" None omitted Scenario.start)
  = Throw (Error "connect ECONNREFUSED").
Proof.
  match goal with
  | |- fst (storeCode ?rt ?w ?c ?n ?k ?m ?s ?st) = Throw ?e =>
      destruct (storeCode_ledger_errors_pass_through rt w c n k m s st
                  "/work" Scenario.signed
                  (snd (storeCode_sign w c k m (Some (ora "dots")) st)) e)
        as (st' & Hrun & _)
  end.
  - vm_compute. reflexivity.
  - left. reflexivity.
  - rewrite Hrun. reflexivity.
Defined.

(** X5.  When the waiter answers [undefined] for the transaction hash,
    [storeCode] parses the empty text in place of a raw log and so reports
    a parse error: the [Error] "Error parsing raw_log from store_code
    transaction: " followed by the parser's message for the empty text. *)
Theorem storeCode_transaction_not_found
    rt w config network contract migrateCodeId spinner st cwd0 tx st1 result m :
  storeCode_sign w config contract migrateCodeId
    (default_param (ora "dots") spinner) st = (Return (cwd0, tx), st1) ->
  broadcastSync w tx = Return result ->
  br_code result = None ->
  waitForInclusionInBlock w (br_txhash result) = Return None ->
  JSON_parse rt EmptyString = inl m ->
  fst (storeCode rt w config network contract migrateCodeId spinner st)
  = Throw (Error ("Error parsing raw_log from store_code transaction: " +:+ m)).
Proof.
  intros Hsign Hb Hcode Hw Hm.
  assert (Hsp : exists o, default_param (ora "dots") spinner = Some o)
    by (destruct spinner; simpl; eauto).
  destruct Hsp as [o Hsp]. rewrite Hsp in Hsign.
  unfold storeCode, bind. rewrite Hsp, Hsign. simpl.
  unfold storeCode_submit, lcd_broadcastSync, wait_for_inclusion, bind, emit, lift.
  simpl. rewrite Hb. unfold has_code. rewrite Hcode. simpl. rewrite Hw. simpl.
  unfold storeCode_record, try_catch, bind, lift. simpl.
  unfold extract_code_id, json_parse. rewrite Hm. reflexivity.
Qed.

Lemma storeCode_transaction_not_found_witness :
  fst (storeCode node (Scenario.world Scenario.accepted None) Scenario.config
         Scenario.network "vault" None omitted Scenario.start)
  = Throw (Error "Error parsing raw_log from store_code transaction: Unexpected token in JSON").
Proof.
  apply (storeCode_transaction_not_found node
           (Scenario.world Scenario.accepted None) Scenario.config
           Scenario.network "vault" None omitted Scenario.start
           "/work" Scenario.signed
           (snd (storeCode_sign (Scenario.world Scenario.accepted None)
                   Scenario.config "vault" None (Some (ora "dots")) Scenario.start))
           Scenario.accepted "Unexpected token in JSON").
  - vm_compute. reflexivity.
  - reflexivity.
  - reflexivity.
  - reflexivity.
  - reflexivity.
Defined.

(** ** What instantiate signs, and how it fails *)

(** What the second half of [instantiate] leaves behind when it throws. *)
Lemma instantiate_submit_Throw rt w config network contract o tx st e st' :
  instantiate_submit rt w config network contract (Some o) tx st = (Throw e, st') ->
  cwd st' = cwd st /\ refs st' = refs st /\ files st' = files st /\
  grown_by (fun ev => ~ is_store_write ev /\ ~ is_sign_request ev /\ ev <> SignerSequence)
    (trace st) (trace st').
Proof.
  assert (Hgrow : forall t t' (P : event -> Prop) x,
            P x -> grown_by P t t' -> grown_by P t (x :: t'))
    by (intros; now apply grown_by_cons).
  unfold instantiate_submit, lcd_broadcastSync, wait_for_inclusion.
  unfold bind at 1 2 3 4. unfold emit, lift. simpl.
  destruct (broadcastSync w tx) as [result|].
  2:{ intros [= <- <-]. simpl. repeat split.
      apply Hgrow; [simpl; intuition discriminate | apply grown_by_nil]. }
  destruct (waitForInclusionInBlock w _) as [res|].
  2:{ intros [= <- <-]. simpl. repeat split.
      repeat (apply Hgrow; [simpl; intuition discriminate|]). apply grown_by_nil. }
  unfold bind at 1. unfold instantiate_parse, try_catch, lift.
  destruct res as [info|]; simpl.
  - unfold json_parse. destruct (JSON_parse rt (ti_raw_log info)) as [m|log]; simpl.
    + intros [= <- <-]. simpl. repeat split.
      repeat (apply Hgrow; [simpl; intuition discriminate|]). apply grown_by_nil.
    + unfold bind, emit, lift, refs_setAddress, refs_saveRefs, ret. simpl.
      destruct (extract_contract_address rt log); [discriminate|].
      intros [= <- <-]. simpl. repeat split.
      repeat (apply Hgrow; [simpl; intuition discriminate|]). apply grown_by_nil.
  - intros [= <- <-]. simpl. repeat split.
    repeat (apply Hgrow; [simpl; intuition discriminate|]). apply grown_by_nil.
Qed.

(** Every request [instantiate] hands to the signer is the one built at
    lines 208-229 from the code id the store held at the start. *)
Lemma instantiate_requests
    rt w config network contract msg options spinner st out st' :
  instantiate rt w config network contract msg options spinner st = (out, st') ->
  exists events,
    trace st' = events ++ trace st /\
    forall request, In (CreateAndSignTx request) events ->
      exists n,
        request = instantiate_tx_options w
                    (Refs.getCodeId (refs st) network contract) msg options n.
Proof.
  unfold instantiate.
  assert (Hsp : exists o, default_param (ora "dots") spinner = Some o)
    by (destruct spinner; simpl; eauto).
  destruct Hsp as [o ->].
  unfold bind at 1. unfold refs_getCodeId.
  destruct (negb (truthy _)).
  { intros [= <- <-]. exists []. split; [reflexivity | intros ? []]. }
  simpl. unfold bind at 1 2. unfold emit.
  match goal with
  | |- context [manual_sequence w options ?s] =>
      assert (Hseq : emits_only (fun e => ~ is_sign_request e)
                       (manual_sequence w options));
      [|destruct (manual_sequence w options s) as [[n|e] s1] eqn:Hn]
  end.
  { unfold manual_sequence, signer_sequence_call.
    repeat emits_step; simpl; tauto. }
  - destruct (Hseq _ _ _ Hn) as (ev1 & T1 & N1). simpl in T1.
    rewrite Forall_forall in N1.
    unfold bind at 1. unfold signer_createAndSignTx, bind at 1, emit, lift.
    destruct (createAndSignTx w _) as [tx|e].
    + intros H.
      destruct (instantiate_submit_emits rt w config network contract (Some o) tx
                  (fun e => ~ is_sign_request e)
                  (fun e H1 _ => H1) _ _ _ H) as (ev2 & T2 & N2).
      simpl in T2. rewrite Forall_forall in N2.
      eexists (ev2 ++ _ :: ev1 ++ [_]).
      split; [rewrite T2, T1; repeat (rewrite <- app_assoc; simpl); reflexivity|].
      intros request Hin. apply in_app_or in Hin as [Hin | [[= <-] | Hin]].
      * apply list_elem_of_In, N2 in Hin. simpl in Hin. tauto.
      * eauto.
      * apply in_app_or in Hin as [Hin | [[=] | []]].
        apply list_elem_of_In, N1 in Hin. simpl in Hin. tauto.
    + intros [= <- <-]. simpl.
      eexists (_ :: ev1 ++ [_]).
      split; [rewrite T1; simpl; rewrite <- app_assoc; reflexivity|].
      intros request [[= <-] | Hin]; [eauto|].
      apply in_app_or in Hin as [Hin | [[=] | []]].
      apply list_elem_of_In, N1 in Hin. simpl in Hin. tauto.
  - destruct (Hseq _ _ _ Hn) as (ev1 & T1 & N1). simpl in T1.
    rewrite Forall_forall in N1.
    intros [= <- <-].
    eexists (ev1 ++ [_]).
    split; [rewrite T1; rewrite <- app_assoc; reflexivity|].
    intros request Hin.
    apply in_app_or in Hin as [Hin | [[=] | []]].
    apply list_elem_of_In, N1 in Hin. simpl in Hin. tauto.
Qed.

Lemma label_or_default_cases options :
  label_or_default options <> EmptyString /\
  (forall l, optional_member options label = Some l -> l <> EmptyString ->
             label_or_default options = l) /\
  (optional_member options label = None \/
   optional_member options label = Some EmptyString ->
   label_or_default options = "Instantiate").
Proof.
  unfold label_or_default.
  destruct (optional_member options label) as [l|]; simpl.
  - destruct (String.eqb_spec l EmptyString) as [->|Hne]; simpl.
    + split; [discriminate|].
      split; [intros l [= <-] H; now destruct H | intros _; reflexivity].
    + split; [assumption|].
      split; [now intros l' [= <-] |].
      intros [[=] | [= ->]]. now destruct Hne.
  - split; [discriminate|].
    split; [discriminate | intros _; reflexivity].
Qed.

(** X8.  Whatever [instantiate] asks the signer to sign is one request of
    one instantiate message: from the signer's address, with the admin and
    the coins of the options, the code id the store held read as a decimal
    number, the init message as given, and a label that is never empty (the
    given one, or "Instantiate" when none or an empty one is given); the
    request always carries a sequence and the fee denomination uluna. *)
Theorem instantiate_signs_one_message
    rt w config network contract msg options spinner st out st' :
  instantiate rt w config network contract msg options spinner st = (out, st') ->
  exists events,
    trace st' = events ++ trace st /\
    forall request, In (CreateAndSignTx request) events ->
      exists n lbl,
        request
        = {| opt_sequence := Some n;
             opt_msgs :=
               [MsgInstantiateContract (accAddress w)
                  (optional_member options admin)
                  (parseInt10 (to_display (Refs.getCodeId (refs st) network contract)))
                  msg (optional_member options coins) lbl];
             opt_feeDenoms := Some ["uluna"] |} /\
        lbl <> EmptyString /\
        (forall l, optional_member options label = Some l -> l <> EmptyString ->
                   lbl = l) /\
        (optional_member options label = None \/
         optional_member options label = Some EmptyString -> lbl = "Instantiate").
Proof.
  intros H. apply instantiate_requests in H as (events & T & Hreq).
  exists events. split; [exact T|].
  intros request Hin. destruct (Hreq _ Hin) as [n ->].
  exists n, (label_or_default options). split; [reflexivity|].
  apply label_or_default_cases.
Qed.

Lemma instantiate_signs_one_message_witness :
  exists n lbl,
    In (CreateAndSignTx
          {| opt_sequence := Some n;
             opt_msgs := [MsgInstantiateContract "terra1signer" (Some "terra1admin")
                            (Some 42) (VObj [("owner", VStr "x")]) None lbl];
             opt_feeDenoms := Some ["uluna"] |})
       (trace (snd (Scenario.create Scenario.accepted
                      (Some {| sequence := Some 3%float; admin := Some "terra1admin";
                               coins := None; label := Some EmptyString |})
                      Scenario.instantiate_log))) /\
    lbl = "Instantiate".
Proof.
  destruct (instantiate_signs_one_message node
              (Scenario.world Scenario.accepted
                 (Scenario.included Scenario.instantiate_log))
              Scenario.config Scenario.network "vault"
              (VObj [("owner", VStr "x")])
              (Some {| sequence := Some 3%float; admin := Some "terra1admin";
                       coins := None; label := Some EmptyString |})
              omitted Scenario.uploaded
              (fst (Scenario.create Scenario.accepted
                      (Some {| sequence := Some 3%float; admin := Some "terra1admin";
                               coins := None; label := Some EmptyString |})
                      Scenario.instantiate_log))
              (snd (Scenario.create Scenario.accepted
                      (Some {| sequence := Some 3%float; admin := Some "terra1admin";
                               coins := None; label := Some EmptyString |})
                      Scenario.instantiate_log)))
    as (events & T & Hreq).
  - vm_compute. reflexivity.
  - change (trace Scenario.uploaded) with (@nil event) in T.
    rewrite app_nil_r in T.
    assert (Hin : In (CreateAndSignTx
                        {| opt_sequence := Some 3%float;
                           opt_msgs := [MsgInstantiateContract "terra1signer"
                                          (Some "terra1admin") (Some 42)
                                          (VObj [("owner", VStr "x")]) None
                                          "Instantiate"];
                           opt_feeDenoms := Some ["uluna"] |}) events)
      by (rewrite <- T; vm_compute; tauto).
    destruct (Hreq _ Hin) as (n & lbl & Heq & _ & _ & Hdefault).
    exists n, lbl. split.
    + rewrite T. injection Heq as <- <-. exact Hin.
    + apply Hdefault. right. reflexivity.
Defined.

Lemma manual_sequence_frame w options st out st1 :
  manual_sequence w options st = (out, st1) ->
  cwd st1 = cwd st /\ refs st1 = refs st /\ files st1 = files st /\
  grown_by (fun ev => ~ is_store_write ev) (trace st) (trace st1).
Proof.
  unfold manual_sequence, signer_sequence_call, bind, emit, lift, ret.
  destruct (optional_member options sequence) as [n|];
    [destruct (number_truthy n)|];
    intros [= <- <-]; simpl; repeat split; grow.
Qed.

(** In the model, where a write to the store cannot itself fail,
    [instantiate] never changes the working directory, and an [instantiate]
    that throws has not written to the reference store: no [setAddress] and
    no [saveRefs] is among the calls it made, and the store and its files
    are as they were. *)
Theorem instantiate_failure_keeps_store
    rt w config network contract msg options spinner st e st' :
  instantiate rt w config network contract msg options spinner st = (Throw e, st') ->
  cwd st' = cwd st /\
  grown_by (fun ev => ~ is_store_write ev) (trace st) (trace st') /\
  refs st' = refs st /\
  files st' = files st.
Proof.
  unfold instantiate.
  assert (Hsp : exists o, default_param (ora "dots") spinner = Some o)
    by (destruct spinner; simpl; eauto).
  destruct Hsp as [o ->].
  unfold bind at 1. unfold refs_getCodeId.
  destruct (negb (truthy _)).
  { intros [= <- <-]. repeat split. apply grown_by_nil. }
  simpl. unfold bind at 1 2. unfold emit.
  match goal with
  | |- context [manual_sequence w options ?s] =>
      destruct (manual_sequence w options s) as [[n|e0] s1] eqn:Hn;
      apply manual_sequence_frame in Hn as (Hc & Hr & Hf & Hg); simpl in *
  end.
  - assert (G : grown_by (fun ev => ~ is_store_write ev) (trace st) (trace s1))
      by (eapply grown_by_trans; [|exact Hg]; grow).
    unfold bind at 1. unfold signer_createAndSignTx, bind at 1, emit, lift.
    destruct (createAndSignTx w _) as [tx|e0].
    + intros H. apply instantiate_submit_Throw in H as (Hc' & Hr' & Hf' & Hg').
      simpl in *. split; [congruence|]. split; [|split; congruence].
      destruct Hg' as (ev & -> & Hall).
      apply grown_by_trans with (t2 := trace s1); [exact G|].
      exists (ev ++ [CreateAndSignTx
                       (instantiate_tx_options w
                          (Refs.getCodeId (refs st) network contract) msg options n)]).
      rewrite <- app_assoc. split; [reflexivity|].
      apply Forall_app. split.
      * eapply Forall_impl; [exact Hall|]. simpl. tauto.
      * repeat constructor. simpl. tauto.
    + intros [= <- <-]. simpl. split; [congruence|].
      split; [|split; congruence].
      apply grown_by_cons; [simpl; tauto | exact G].
  - intros [= <- <-]. split; [congruence|]. split; [|split; congruence].
    eapply grown_by_trans; [|exact Hg]. grow.
Qed.

Lemma instantiate_failure_keeps_store_witness :
  refs (snd (Scenario.create Scenario.accepted None Scenario.eventless_log))
  = refs Scenario.uploaded.
Proof.
  destruct (instantiate_failure_keeps_store node
              (Scenario.world Scenario.accepted
                 (Scenario.included Scenario.eventless_log))
              Scenario.config Scenario.network "vault"
              (VObj [("owner", VStr "x")]) None omitted Scenario.uploaded
              (TypeError "Cannot read properties of undefined (reading 'attributes')")
              (snd (Scenario.create Scenario.accepted None Scenario.eventless_log)))
    as (_ & _ & Hrefs & _).
  - vm_compute. reflexivity.
  - exact Hrefs.
Defined.

(** X9.  When the waiter answers [undefined] for the transaction hash,
    [instantiate] tells the spinner of the failure and throws an [Error]
    whose message is "Unexpcted Error: " followed by the text of the
    engine's [TypeError] for reading [raw_log] of [undefined]; nothing is
    written to the store. *)
Theorem instantiate_transaction_not_found
    rt w config network contract o tx st result :
  broadcastSync w tx = Return result ->
  waitForInclusionInBlock w (br_txhash result) = Return None ->
  instantiate_submit rt w config network contract (Some o) tx st
  = (Throw (Error ("Unexpcted Error: "
                   +:+ error_to_string
                         (TypeError (type_error_message rt
                                       (ReadOfNullish VUndefined "raw_log"))))),
     {| cwd := cwd st; refs := refs st; files := files st;
        trace := SpinnerFail o None
                 :: WaitForInclusionInBlock (br_txhash result)
                 :: BroadcastSync tx :: trace st |}).
Proof.
  intros Hb Hw.
  unfold instantiate_submit, lcd_broadcastSync, wait_for_inclusion.
  unfold bind at 1 2 3 4. unfold emit, lift. simpl. rewrite Hb, Hw.
  reflexivity.
Qed.

Lemma instantiate_transaction_not_found_witness :
  fst (instantiate_submit node (Scenario.world Scenario.accepted None)
         Scenario.config Scenario.network "vault" (Some (ora "dots"))
         Scenario.signed Scenario.uploaded)
  = Throw (Error "Unexpcted Error: TypeError: Cannot read properties of undefined (reading 'raw_log')").
Proof.
  rewrite (instantiate_transaction_not_found node
             (Scenario.world Scenario.accepted None) Scenario.config
             Scenario.network "vault" (ora "dots") Scenario.signed
             Scenario.uploaded Scenario.accepted eq_refl eq_refl).
  vm_compute. reflexivity.
Defined.

(** X10.  When the sequence has to be asked of the signer (none was
    supplied) and the signer throws, [instantiate] throws that very
    exception right after the question: nothing is signed, nothing is
    broadcast, the store is as it was. *)
Theorem instantiate_sequence_query_fails
    rt w config network contract msg options spinner st e :
  truthy (Refs.getCodeId (refs st) network contract) = true ->
  optional_member options sequence = None ->
  signer_sequence w = Throw e ->
  exists o text,
    instantiate rt w config network contract msg options spinner st
    = (Throw e,
       {| cwd := cwd st; refs := refs st; files := files st;
          trace := SignerSequence :: SpinnerStart o text :: trace st |}).
Proof.
  intros Hid Hnone Hseq.
  assert (Hsp : exists o, default_param (ora "dots") spinner = Some o)
    by (destruct spinner; simpl; eauto).
  destruct Hsp as [o Hsp]. exists o. eexists.
  unfold instantiate. rewrite Hsp.
  unfold bind at 1. unfold refs_getCodeId. rewrite Hid. simpl.
  unfold bind at 1 2. unfold emit.
  rewrite (manual_sequence_absent _ _ Hnone).
  unfold signer_sequence_call, bind, emit, lift. rewrite Hseq. reflexivity.
Qed.

Lemma instantiate_sequence_query_fails_witness :
  fst (instantiate node
         {| process_arch := "x64"; path_join := Scenario.join;
            path_undefined_message := Scenario.node_path_undefined_message;
            chdir_result := fun _ => None;
            existsSync := fun _ => true;
            readFileSync_base64 := fun _ => Return "AGFzbQEAAAA=";
            accAddress := "terra1signer";
            signer_sequence := Throw (Error "account not found");
            createAndSignTx := fun _ => Return Scenario.signed;
            broadcastSync := fun _ => Return Scenario.accepted;
            waitForInclusionInBlock := fun _ => Return None |}
         Scenario.config Scenario.network "vault" VNull None omitted
         Scenario.uploaded)
  = Throw (Error "account not found").
Proof.
  match goal with
  | |- fst (instantiate ?rt ?w ?c ?n ?k ?m ?op ?s ?st) = Throw ?e =>
      destruct (instantiate_sequence_query_fails rt w c n k m op s st e)
        as (o & text & Hrun)
  end.
  - vm_compute. reflexivity.
  - reflexivity.
  - reflexivity.
  - rewrite Hrun. reflexivity.
Defined.

(** ** From storeCode to instantiate *)

Lemma storeCode_Return_refs
    rt w config network contract migrateCodeId spinner st v st1 :
  storeCode rt w config network contract migrateCodeId spinner st = (Return v, st1) ->
  refs st1 = Refs.setCodeId network contract v (refs st).
Proof.
  unfold storeCode. intros H.
  assert (Hsp : exists o, default_param (ora "dots") spinner = Some o)
    by (destruct spinner; simpl; eauto).
  destruct Hsp as [o Hsp]. rewrite Hsp in H. unfold bind in H.
  destruct (storeCode_sign w config contract migrateCodeId (Some o) st)
    as [[[cwd0 tx]|e] s] eqn:Hsign; [|discriminate].
  simpl in H.
  apply storeCode_sign_Return in Hsign
    as (buildInfo & code & _ & _ & _ & _ & _ & _ & ->).
  apply storeCode_submit_Return in H as (result & res & _ & _ & _ & H).
  apply storeCode_record_Return in H as (o' & _ & _ & _ & ->).
  reflexivity.
Qed.

(** X12.  [instantiate] after a successful [storeCode] of the same contract
    works with the value [storeCode] returned (the store being as the spec
    describes it): when that value is falsy, as the [undefined] of an
    attribute without a value, [instantiate] throws the error of a missing
    code id and does nothing; otherwise every request it signs carries that
    value read as a decimal number for its code id. *)
Theorem storeCode_then_instantiate
    rt w config network contract migrateCodeId spinner st v st1
    msg options spinner' :
  storeCode rt w config network contract migrateCodeId spinner st = (Return v, st1) ->
  (truthy v = false ->
   instantiate rt w config network contract msg options spinner' st1
   = (Throw (Error ("Contract " +:+ contract +:+ " code id not found in refs.")),
      st1)) /\
  (forall out st2,
     instantiate rt w config network contract msg options spinner' st1 = (out, st2) ->
     exists events,
       trace st2 = events ++ trace st1 /\
       forall request, In (CreateAndSignTx request) events ->
         opt_msgs request
         = [MsgInstantiateContract (accAddress w) (optional_member options admin)
              (parseInt10 (to_display v)) msg (optional_member options coins)
              (label_or_default options)]).
Proof.
  intros Hstore. apply storeCode_Return_refs in Hstore.
  assert (Hid : Refs.getCodeId (refs st1) network contract = v)
    by (rewrite Hstore; apply getCodeId_setCodeId).
  split.
  - intros Hfalsy. unfold instantiate, bind, refs_getCodeId.
    rewrite Hid, Hfalsy. reflexivity.
  - intros out st2 H. apply instantiate_requests in H as (events & T & Hreq).
    exists events. split; [exact T|].
    intros request Hin. destruct (Hreq _ Hin) as [n ->]. rewrite Hid. reflexivity.
Qed.

Lemma storeCode_then_instantiate_witness :
  fst (Scenario.upload None omitted Workshop.valueless_log) = Return VUndefined /\
  fst (instantiate node
         (Scenario.world Scenario.accepted
            (Scenario.included Workshop.valueless_log))
         Scenario.config Scenario.network "vault" VNull None omitted
         (snd (Scenario.upload None omitted Workshop.valueless_log)))
  = Throw (Error "Contract vault code id not found in refs.").
Proof.
  assert (Hrun : Scenario.upload None omitted Workshop.valueless_log
                 = (Return VUndefined,
                    snd (Scenario.upload None omitted Workshop.valueless_log)))
    by (vm_compute; reflexivity).
  split; [now rewrite Hrun|].
  destruct (storeCode_then_instantiate node
              (Scenario.world Scenario.accepted
                 (Scenario.included Workshop.valueless_log))
              Scenario.config Scenario.network "vault" None omitted Scenario.start
              VUndefined (snd (Scenario.upload None omitted Workshop.valueless_log))
              VNull None omitted Hrun) as [Hfalsy _].
  rewrite (Hfalsy eq_refl). reflexivity.
Defined.

(** ** The code id as a number *)

Lemma digit_value_pretty_N_char d :
  (d < 10)%N -> digit_value (pretty_N_char d) = Some (Z.of_N d).
Proof.
  intros H.
  assert (d = 0 \/ d = 1 \/ d = 2 \/ d = 3 \/ d = 4 \/ d = 5 \/ d = 6
          \/ d = 7 \/ d = 8 \/ d = 9)%N as Hd by lia.
  repeat (destruct Hd as [-> | Hd]; [reflexivity|]). now subst.
Qed.

Lemma div_10_lt (x : N) : (0 < x)%N -> (x `div` 10 < x)%N.
Proof. intros H. apply N.div_lt; [assumption | reflexivity]. Qed.

Lemma leading_digits_pretty_N_go x :
  (0 < x)%N ->
  forall s, leading_digits None (pretty_N_go x s)
            = leading_digits (Some (Z.of_N x)) s.
Proof.
  induction (N.lt_wf_0 x) as [x _ IH]. intros Hx s.
  rewrite pretty_N_go_step by assumption.
  assert (Hmod : (x `mod` 10 < 10)%N) by (apply N.mod_lt; discriminate).
  destruct (decide (x `div` 10 = 0)%N) as [Hz | Hnz].
  - rewrite Hz, pretty_N_go_0. simpl.
    rewrite (digit_value_pretty_N_char _ Hmod). simpl.
    apply N.div_small_iff in Hz; [|discriminate].
    rewrite N.mod_small by assumption. reflexivity.
  - rewrite IH; [| now apply div_10_lt | now apply N.neq_0_lt_0].
    simpl. rewrite (digit_value_pretty_N_char _ Hmod). simpl.
    do 2 f_equal.
    pose proof (N.div_mod x 10 ltac:(discriminate)) as E.
    rewrite E at 3. rewrite N2Z.inj_add, N2Z.inj_mul. reflexivity.
Qed.

Lemma pretty_N_go_head x s :
  (0 < x)%N ->
  exists c r d, pretty_N_go x s = String c r /\ digit_value c = Some d.
Proof.
  revert s. induction (N.lt_wf_0 x) as [x _ IH]. intros s Hx.
  rewrite pretty_N_go_step by assumption.
  assert (Hmod : (x `mod` 10 < 10)%N) by (apply N.mod_lt; discriminate).
  destruct (decide (x `div` 10 = 0)%N) as [Hz | Hnz].
  - rewrite Hz, pretty_N_go_0.
    eexists _, _, _. split; [reflexivity | now apply digit_value_pretty_N_char].
  - apply IH; [now apply div_10_lt | now apply N.neq_0_lt_0].
Qed.

Lemma pretty_N_go_app x s : pretty_N_go x s = pretty_N_go x EmptyString +:+ s.
Proof.
  revert s. induction (N.lt_wf_0 x) as [x _ IH]. intros s.
  destruct (decide (x = 0)%N) as [-> | Hnz].
  - rewrite !pretty_N_go_0. reflexivity.
  - apply N.neq_0_lt_0 in Hnz.
    rewrite !(pretty_N_go_step x) by assumption.
    rewrite (IH (x `div` 10)%N (div_10_lt x Hnz)).
    rewrite (IH (x `div` 10)%N (div_10_lt x Hnz) (String _ EmptyString)).
    rewrite append_assoc_r. reflexivity.
Qed.

Lemma parseInt10_digit_head c r d :
  digit_value c = Some d ->
  parseInt10 (String c r) = leading_digits None (String c r).
Proof.
  unfold digit_value. intros H.
  destruct ((48 <=? Z.of_N (N_of_ascii c)) && (Z.of_N (N_of_ascii c) <=? 57))
    eqn:Hrange; [|discriminate].
  apply andb_prop in Hrange as [Hlo Hhi].
  apply Z.leb_le in Hlo. apply Z.leb_le in Hhi.
  rewrite <- (ascii_N_embedding c).
  assert (N_of_ascii c = 48 \/ N_of_ascii c = 49 \/ N_of_ascii c = 50
          \/ N_of_ascii c = 51 \/ N_of_ascii c = 52 \/ N_of_ascii c = 53
          \/ N_of_ascii c = 54 \/ N_of_ascii c = 55 \/ N_of_ascii c = 56
          \/ N_of_ascii c = 57)%N as Hc by lia.
  repeat (destruct Hc as [-> | Hc]; [reflexivity|]). rewrite Hc. reflexivity.
Qed.

Lemma leading_digits_stop n suffix :
  (forall c r, suffix = String c r -> digit_value c = None) ->
  leading_digits (Some n) suffix = Some n.
Proof.
  destruct suffix as [|c r]; [reflexivity|].
  intros H. simpl. now rewrite (H c r eq_refl).
Qed.

Lemma parseInt10_pretty_N x suffix :
  (0 < x)%N ->
  (forall c r, suffix = String c r -> digit_value c = None) ->
  parseInt10 (pretty_N_go x EmptyString +:+ suffix) = Some (Z.of_N x).
Proof.
  intros Hx Hs. rewrite <- pretty_N_go_app.
  destruct (pretty_N_go_head x suffix Hx) as (c & r & d & E & Hd).
  rewrite E, (parseInt10_digit_head _ _ _ Hd), <- E.
  rewrite leading_digits_pretty_N_go by assumption.
  now apply leading_digits_stop.
Qed.

(** X13.  The code id of the instantiate message is read back exactly: for
    [n] among the integers a number holds exactly, a code id recorded as
    the number [n], or as a string that starts with the decimal digits of
    [n] and goes on with anything but a digit, is sent as [n]. *)
Theorem code_id_read_back (n : Z) (suffix : string) :
  Z.abs n <= 2 ^ 53 ->
  (forall c r, suffix = String c r -> digit_value c = None) ->
  parseInt10 (to_display (VNum n)) = Some n /\
  parseInt10 (to_display (VStr (pretty n +:+ suffix))) = Some n.
Proof.
  intros _ Hs.
  assert (H : forall t, (forall c r, t = String c r -> digit_value c = None) ->
                        parseInt10 (pretty n +:+ t) = Some n).
  { intros t Ht. destruct n as [|p|p].
    - change (pretty 0) with "0". change ("0" +:+ t) with (String "0" t).
      rewrite (parseInt10_digit_head "0" t 0 eq_refl). simpl.
      now apply leading_digits_stop.
    - change (pretty (Z.pos p)) with (pretty_N_go (N.pos p) EmptyString).
      now apply parseInt10_pretty_N.
    - change (pretty (Z.neg p))
        with ("-" +:+ pretty_N_go (N.pos p) EmptyString).
      rewrite append_assoc_r.
      change (parseInt10 ("-" +:+ pretty_N_go (N.pos p) EmptyString +:+ t))
        with (Z.opp <$> leading_digits None
                (pretty_N_go (N.pos p) EmptyString +:+ t)).
      rewrite <- pretty_N_go_app, leading_digits_pretty_N_go by reflexivity.
      rewrite leading_digits_stop by assumption. reflexivity. }
  split.
  - simpl. rewrite <- (append_empty_r (pretty n)). apply H. discriminate.
  - simpl. now apply H.
Qed.

Lemma code_id_read_back_witness :
  parseInt10 (to_display (VNum 42)) = Some 42 /\
  parseInt10 (to_display (VStr (pretty 42 +:+ "abc"))) = Some 42.
Proof.
  apply (code_id_read_back 42 "abc").
  - vm_compute. discriminate.
  - intros c r [= <- <-]. reflexivity.
Defined.

(** ** The build pipeline *)

(** X14.  [buildContract] and [optimizeContract] on a name the
    configuration has no entry for throw before they do anything: no
    command is run and the working directory is as it was.  What they
    throw is the error that says the build information was not found,
    unless the name is one that [Object.prototype] answers to ([toString],
    [constructor], ...): then the check passes and what is thrown is the
    [TypeError] of [path.join] for a source folder that is [undefined]. *)
Theorem build_unknown_contract rt w tools config contract spinner log sh :
  contracts config !! contract = None ->
  let thrown :=
    if inherited contract
    then TypeError (path_undefined_message w)
    else Error ("Contract " +:+ contract
                +:+ " build information not found in config file.") in
  buildContract w tools config contract spinner log sh = (Throw thrown, sh) /\
  optimizeContract rt w tools config contract spinner log sh = (Throw thrown, sh).
Proof.
  intros H. unfold buildContract, optimizeContract. rewrite H.
  destruct (inherited contract); split; reflexivity.
Qed.

Lemma build_unknown_contract_witness :
  buildContract (Workshop.world "x64" true)
    (Workshop.tools "linux" Workshop.plain_manifest None) Scenario.config
    "bank" omitted omitted Workshop.start
  = (Throw (Error "Contract bank build information not found in config file."),
     Workshop.start).
Proof.
  apply (build_unknown_contract node (Workshop.world "x64" true)
           (Workshop.tools "linux" Workshop.plain_manifest None) Scenario.config
           "bank" omitted omitted Workshop.start).
  vm_compute. reflexivity.
Defined.

(** A name the configuration does not hold but [Object.prototype] does. *)
Example optimizeContract_inherited_name :
  optimizeContract node (Workshop.world "x64" true)
    (Workshop.tools "linux" Workshop.plain_manifest None) Scenario.config
    "constructor" omitted omitted Workshop.start
  = (Throw (TypeError (json_text
       "The 'path' argument must be of type string. Received undefined")),
     Workshop.start).
Proof. vm_compute. reflexivity. Qed.

(** X15.  Once [buildContract] has moved into the folder of the contract:
    if it returns, it has run the one command [cargo wasm] there, with the
    output shown exactly when [log] is given as true, told the spinner of
    the success and moved back; if it throws, the process is still in the
    folder of the contract, and either the command failed, with its
    exception thrown on and the spinner not told of any success, or moving
    back failed. *)
Theorem buildContract_outcome w tools config contract spinner log sh buildInfo out sh' :
  let contractFolder := path_join w [sh_cwd sh; src buildInfo] in
  let command := ExecSync contractFolder (VStr "cargo wasm")
                   (default_value false log) in
  contracts config !! contract = Some buildInfo ->
  chdir_result w contractFolder = None ->
  buildContract w tools config contract spinner log sh = (out, sh') ->
  exists o,
    let started := command
                   :: BuildSpinnerStart o ("Building " +:+ contract +:+ "...")
                   :: sh_trace sh in
    let built := BuildSpinnerSucceed o ("Built " +:+ contract +:+ " successfully.")
                 :: started in
    match out with
    | Return _ => sh_cwd sh' = sh_cwd sh /\ sh_trace sh' = built
    | Throw e =>
        sh_cwd sh' = contractFolder /\
        ((execSync tools contractFolder (VStr "cargo wasm")
            (default_value false log) = Some e /\
          sh_trace sh' = started) \/
         (chdir_result w (sh_cwd sh) = Some e /\ sh_trace sh' = built))
    end.
Proof.
  intros contractFolder command Hc Hcd.
  unfold buildContract. rewrite Hc.
  assert (Hsp : exists o, default_param (ora "dots") spinner = Some o)
    by (destruct spinner; simpl; eauto).
  destruct Hsp as [o ->]. intros H. exists o. cbv zeta.
  unfold sh_bind, sh_process_cwd, sh_process_chdir, sh_execSync, sh_optional_call,
    sh_emit, sh_ret, sh_throw in H.
  cbv beta in H. fold contractFolder in H. rewrite Hcd in H.
  unfold sh_bind, sh_process_cwd in H. simpl in H.
  destruct (execSync tools _ _ _) as [e|] eqn:Hexec; simpl in H.
  - injection H as <- <-. simpl. auto.
  - destruct (chdir_result w (sh_cwd sh)) as [e|] eqn:Hback;
      injection H as <- <-; simpl; auto.
Qed.

Lemma buildContract_outcome_witness :
  sh_cwd (snd (buildContract (Workshop.world "x64" true)
                 (Workshop.tools "linux" Workshop.plain_manifest
                    (Some (Error "Command failed: cargo wasm")))
                 Scenario.config "vault" omitted (passed true) Workshop.start))
  = "/work/contracts/vault".
Proof.
  destruct (buildContract_outcome (Workshop.world "x64" true)
              (Workshop.tools "linux" Workshop.plain_manifest
                 (Some (Error "Command failed: cargo wasm")))
              Scenario.config "vault" omitted (passed true) Workshop.start
              {| src := "contracts/vault" |}
              (Throw (Error "Command failed: cargo wasm"))
              (snd (buildContract (Workshop.world "x64" true)
                      (Workshop.tools "linux" Workshop.plain_manifest
                         (Some (Error "Command failed: cargo wasm")))
                      Scenario.config "vault" omitted (passed true)
                      Workshop.start)))
    as (o & Hcwd & _).
  - vm_compute. reflexivity.
  - reflexivity.
  - vm_compute. reflexivity.
  - exact Hcwd.
Defined.

(** X16.  When the folder of the contract has no Cargo.toml,
    [optimizeContract] throws the error that names the folder.  No file was
    read and no command run, but the process has been moved into the folder
    and stays there. *)
Theorem optimizeContract_missing_manifest
    rt w tools config contract spinner log sh buildInfo :
  let contractFolder := path_join w [sh_cwd sh; src buildInfo] in
  contracts config !! contract = Some buildInfo ->
  chdir_result w contractFolder = None ->
  existsSync w (path_join w [contractFolder; "Cargo.toml"]) = false ->
  optimizeContract rt w tools config contract spinner log sh
  = (Throw (Error ("Cargo.toml not found in " +:+ contractFolder)),
     {| sh_cwd := contractFolder; sh_trace := sh_trace sh |}).
Proof.
  intros contractFolder Hc Hcd Hex.
  unfold optimizeContract. rewrite Hc.
  unfold sh_bind, sh_process_cwd, sh_process_chdir.
  fold contractFolder. rewrite Hcd, Hex. reflexivity.
Qed.

Lemma optimizeContract_missing_manifest_witness :
  optimizeContract node (Workshop.world "x64" false)
    (Workshop.tools "linux" Workshop.plain_manifest None) Scenario.config
    "vault" omitted omitted Workshop.start
  = (Throw (Error "Cargo.toml not found in /work/contracts/vault"),
     {| sh_cwd := "/work/contracts/vault"; sh_trace := [] |}).
Proof.
  apply (optimizeContract_missing_manifest node (Workshop.world "x64" false)
           (Workshop.tools "linux" Workshop.plain_manifest None) Scenario.config
           "vault" omitted omitted Workshop.start {| src := "contracts/vault" |}).
  - vm_compute. reflexivity.
  - reflexivity.
  - reflexivity.
Defined.

(** The part of [optimizeContract] that follows the reading of the
    manifest, as a function of the package table. *)
Lemma optimizeContract_reads_manifest
    rt w tools config contract spinner log sh buildInfo text manifest :
  let contractFolder := path_join w [sh_cwd sh; src buildInfo] in
  let cargoFile := path_join w [contractFolder; "Cargo.toml"] in
  contracts config !! contract = Some buildInfo ->
  chdir_result w contractFolder = None ->
  existsSync w cargoFile = true ->
  readFileSync_utf8 tools cargoFile = Return text ->
  parseTOML tools text = Return manifest ->
  exists o,
    let params := {| p_contract := contract; p_spinner := Some o;
                     p_log := default_value false log |} in
    let pkg := default VUndefined (own_property manifest "package") in
    optimizeContract rt w tools config contract spinner log sh
    = sh_bind
        (sh_lift (optimize_script rt pkg))
        (fun script =>
           sh_bind
             (if truthy script
              then
                sh_bind (sh_lift (optimize_of rt pkg))
                  (fun optimize =>
                sh_bind (eval_backquoted tools (to_display optimize)
                           {| c_buildInfo := buildInfo;
                              c_contractFolder := contractFolder;
                              c_cwd := sh_cwd sh; c_cargoFile := cargoFile;
                              c_pkg := pkg; c_optimize := optimize |} params)
                  (fun evaluated =>
                sh_bind (run_optimizer tools (snd evaluated) (fst evaluated))
                  (fun _ => sh_ret (snd evaluated))))
              else
                sh_bind (run_optimizer tools params
                           (VStr (docker_command w tools contract)))
                  (fun _ => sh_ret params))
             (fun params' =>
                sh_bind (sh_optional_call (p_spinner params')
                           (fun o' => BuildSpinnerSucceed o'
                              ("Optimized " +:+ p_contract params'
                               +:+ " successfully.")))
                  (fun _ => sh_process_chdir w (sh_cwd sh))))
        {| sh_cwd := contractFolder; sh_trace := sh_trace sh |}.
Proof.
  intros contractFolder cargoFile Hc Hcd Hex Hrd Hparse.
  assert (Hsp : exists o, default_param (ora "dots") spinner = Some o)
    by (destruct spinner; simpl; eauto).
  destruct Hsp as [o Hsp]. exists o.
  unfold optimizeContract. rewrite Hc, Hsp.
  unfold sh_bind at 1 2 3. unfold sh_process_cwd, sh_process_chdir.
  fold contractFolder. rewrite Hcd. fold cargoFile. rewrite Hex. simpl negb.
  cbv iota.
  unfold sh_bind at 1. unfold sh_lift at 1. rewrite Hrd.
  unfold sh_bind at 1. unfold sh_lift at 1. rewrite Hparse.
  reflexivity.
Qed.

Lemma suffix_after a t x :
  (exists before, t = before +:+ x) -> exists before, a +:+ t = before +:+ x.
Proof.
  intros [b ->]. exists (a +:+ b). symmetry. apply append_assoc_r.
Qed.

Lemma infix_after a t (x : string -> string) :
  (exists before after, t = before +:+ x after) ->
  exists before after, a +:+ t = before +:+ x after.
Proof.
  intros (b & c & ->). exists (a +:+ b), c. symmetry. apply append_assoc_r.
Qed.

Lemma docker_command_shape w tools contract :
  (exists before after,
     docker_command w tools contract
     = before +:+ DQUOTE +:+ contract +:+ "_cache" +:+ DQUOTE +:+ after) /\
  (exists before,
     docker_command w tools contract
     = before +:+ (if String.eqb (process_arch w) "arm64"
                   then "cosmwasm/rust-optimizer-arm64:0.12.5"
                   else "cosmwasm/rust-optimizer:0.12.5")) /\
  (exists after,
     docker_command w tools contract
     = "docker run --rm -v "
       +:+ DQUOTE +:+ (if String.eqb (os_platform tools) "win32"
                       then "%cd%" else "$(pwd)") +:+ DQUOTE
       +:+ ":/code " +:+ after).
Proof.
  unfold docker_command. split; [|split].
  - do 6 apply (infix_after _ _
                  (fun after => DQUOTE +:+ contract +:+ "_cache" +:+ DQUOTE +:+ after)).
    exists EmptyString. eexists. reflexivity.
  - do 13 apply suffix_after.
    exists EmptyString. unfold optimizer_image.
    destruct (String.eqb (process_arch w) "arm64"); reflexivity.
  - eexists. reflexivity.
Qed.

(** X17.  With a manifest that names no optimize script, [optimizeContract]
    runs the default optimizer in the folder of the contract and moves
    back: one docker command that mounts the current folder in the words of
    the host's shell ([%cd%] on win32, [$(pwd)] elsewhere), names its cache
    volume after the contract, and ends with the image for the host's CPU
    ([-arm64] on arm64). *)
Theorem optimizeContract_default_optimizer
    rt w tools config contract spinner log sh buildInfo text manifest script :
  let contractFolder := path_join w [sh_cwd sh; src buildInfo] in
  let cargoFile := path_join w [contractFolder; "Cargo.toml"] in
  contracts config !! contract = Some buildInfo ->
  chdir_result w contractFolder = None ->
  existsSync w cargoFile = true ->
  readFileSync_utf8 tools cargoFile = Return text ->
  parseTOML tools text = Return manifest ->
  optimize_script rt (default VUndefined (own_property manifest "package"))
  = Return script ->
  truthy script = false ->
  (forall command,
     execSync tools contractFolder command (default_value false log) = None) ->
  chdir_result w (sh_cwd sh) = None ->
  exists o command,
    optimizeContract rt w tools config contract spinner log sh
    = (Return tt,
       {| sh_cwd := sh_cwd sh;
          sh_trace :=
            BuildSpinnerSucceed o ("Optimized " +:+ contract +:+ " successfully.")
            :: ExecSync contractFolder (VStr command) (default_value false log)
            :: BuildSpinnerStart o ("Optimizing " +:+ contract +:+ "...")
            :: sh_trace sh |}) /\
    (exists before after,
       command = before +:+ DQUOTE +:+ contract +:+ "_cache" +:+ DQUOTE +:+ after) /\
    (exists before,
       command = before +:+ (if String.eqb (process_arch w) "arm64"
                             then "cosmwasm/rust-optimizer-arm64:0.12.5"
                             else "cosmwasm/rust-optimizer:0.12.5")) /\
    (exists after,
       command = "docker run --rm -v "
                 +:+ DQUOTE +:+ (if String.eqb (os_platform tools) "win32"
                                 then "%cd%" else "$(pwd)") +:+ DQUOTE
                 +:+ ":/code " +:+ after).
Proof.
  intros contractFolder cargoFile Hc Hcd Hex Hrd Hparse Hscript Hfalsy Hexec Hback.
  destruct (optimizeContract_reads_manifest rt w tools config contract spinner log
              sh buildInfo text manifest Hc Hcd Hex Hrd Hparse) as [o Hrun].
  exists o, (docker_command w tools contract).
  split; [|apply docker_command_shape].
  rewrite Hrun. cbv zeta. unfold sh_bind at 1. unfold sh_lift.
  rewrite Hscript, Hfalsy.
  unfold run_optimizer, sh_optional_call, sh_execSync, sh_bind, sh_process_cwd,
    sh_emit, sh_ret, sh_process_chdir.
  simpl. rewrite Hexec. simpl. rewrite Hback. reflexivity.
Qed.

Lemma optimizeContract_default_optimizer_witness :
  exists command,
    In (ExecSync "/work/contracts/vault" (VStr command) false)
       (sh_trace (snd (optimizeContract node (Workshop.world "arm64" true)
                         (Workshop.tools "win32" Workshop.plain_manifest None)
                         Scenario.config "vault" omitted omitted Workshop.start))) /\
    exists before, command = before +:+ "cosmwasm/rust-optimizer-arm64:0.12.5".
Proof.
  destruct (optimizeContract_default_optimizer node (Workshop.world "arm64" true)
              (Workshop.tools "win32" Workshop.plain_manifest None)
              Scenario.config "vault" omitted omitted Workshop.start
              {| src := "contracts/vault" |} "[package]" Workshop.plain_manifest
              VUndefined)
    as (o & command & Hrun & _ & Himage & _);
    [vm_compute; reflexivity.. |].
  exists command. rewrite Hrun. split; [simpl; auto | exact Himage].
Defined.



(** X19.  A manifest without a [package] table makes [optimizeContract]
    throw the engine's [TypeError] for reading [metadata] of [undefined]:
    no command is run, and the process stays in the folder of the
    contract. *)
Theorem optimizeContract_without_package
    rt w tools config contract spinner log sh buildInfo text manifest :
  let contractFolder := path_join w [sh_cwd sh; src buildInfo] in
  let cargoFile := path_join w [contractFolder; "Cargo.toml"] in
  contracts config !! contract = Some buildInfo ->
  chdir_result w contractFolder = None ->
  existsSync w cargoFile = true ->
  readFileSync_utf8 tools cargoFile = Return text ->
  parseTOML tools text = Return manifest ->
  own_property manifest "package" = None ->
  optimizeContract rt w tools config contract spinner log sh
  = (Throw (TypeError (type_error_message rt (ReadOfNullish VUndefined "metadata"))),
     {| sh_cwd := contractFolder; sh_trace := sh_trace sh |}).
Proof.
  intros contractFolder cargoFile Hc Hcd Hex Hrd Hparse Hp.
  destruct (optimizeContract_reads_manifest rt w tools config contract spinner log
              sh buildInfo text manifest Hc Hcd Hex Hrd Hparse) as [o Hrun].
  rewrite Hrun, Hp. reflexivity.
Qed.

Lemma optimizeContract_without_package_witness :
  optimizeContract node (Workshop.world "x64" true)
    (Workshop.tools "linux" [] None)
    Scenario.config "vault" omitted omitted Workshop.start
  = (Throw (TypeError "Cannot read properties of undefined (reading 'metadata')"),
     {| sh_cwd := "/work/contracts/vault"; sh_trace := [] |}).
Proof.
  apply (optimizeContract_without_package node (Workshop.world "x64" true)
           (Workshop.tools "linux" [] None)
           Scenario.config "vault" omitted omitted Workshop.start
           {| src := "contracts/vault" |} "[package]" []);
    vm_compute; reflexivity.
Defined.

(** ** The dialogue with the ledger *)

(** The events a run added, read off the two traces. *)
Ltac new_events t0 l :=
  lazymatch l with
  | t0 => constr:(@nil event)
  | ?e :: ?l' => let r := new_events t0 l' in constr:(e :: r)
  end.

Ltac exists_events :=
  lazymatch goal with
  | |- exists events, ?l = events ++ ?t0 /\ _ =>
      let r := new_events t0 l in exists r; split; [reflexivity|]
  end.

(** X6.  In one call [storeCode] asks the ledger in a fixed order and each
    thing at most once: it has one request signed, broadcasts the
    transaction the signer returned, and waits for the hash the broadcast
    returned; it never asks the signer for its sequence, never broadcasts
    twice, and never waits for a transaction it did not broadcast. *)
Theorem storeCode_ledger_dialogue
    rt w config network contract migrateCodeId spinner st out st' :
  storeCode rt w config network contract migrateCodeId spinner st = (out, st') ->
  exists events,
    trace st' = events ++ trace st /\
    ledger_dialogue w (filter is_ledger_call events) /\
    ~ In SignerSequence events.
Proof.
  unfold storeCode.
  assert (Hsp : exists o, default_param (ora "dots") spinner = Some o)
    by (destruct spinner; simpl; eauto).
  destruct Hsp as [o ->].
  unfold bind at 1. unfold storeCode_sign.
  destruct (contracts config !! contract) as [buildInfo|].
  2:{ destruct (inherited contract);
        (intros [= <- <-]; exists []; simpl; split; [reflexivity|];
         split; [constructor | tauto]). }
  unfold bind, process_cwd, process_chdir, with_cwd.
  destruct (chdir_result w _).
  { intros [= <- <-]. exists []. simpl. split; [reflexivity|].
    split; [constructor | tauto]. }
  destruct (existsSync w _); simpl.
  2:{ intros [= <- <-]. exists []. simpl. split; [reflexivity|].
      split; [constructor | tauto]. }
  unfold bind, lift.
  destruct (readFileSync_base64 w _).
  2:{ intros [= <- <-]. exists []. simpl. split; [reflexivity|].
      split; [constructor | tauto]. }
  unfold signer_createAndSignTx, bind, emit, lift, ret. simpl.
  destruct (createAndSignTx w _) as [tx|] eqn:Hsig.
  2:{ intros [= <- <-]. simpl. exists_events. simpl.
      split; [eapply asked_signature; eauto | intuition discriminate]. }
  unfold storeCode_submit, lcd_broadcastSync, wait_for_inclusion, bind, emit, lift.
  simpl.
  destruct (broadcastSync w tx) as [result|] eqn:Hb.
  2:{ intros [= <- <-]. simpl. exists_events. simpl.
      split; [eapply asked_broadcast; eauto | intuition discriminate]. }
  destruct (has_code result); simpl.
  { intros [= <- <-]. simpl. exists_events. simpl.
    split; [eapply asked_broadcast; eauto | intuition discriminate]. }
  destruct (waitForInclusionInBlock w _) as [res|] eqn:Hw.
  2:{ intros [= <- <-]. simpl. exists_events. simpl.
      split; [eapply asked_inclusion; eauto | intuition discriminate]. }
  simpl.
  unfold storeCode_record, try_catch, bind, lift, process_chdir, with_cwd,
    refs_setCodeId, refs_saveRefs, ret.
  destruct (extract_code_id rt _) as [v|e]; simpl.
  - destruct (chdir_result w (cwd st)) as [e|]; simpl.
    + destruct (instanceof_SyntaxError e); intros [= <- <-]; simpl;
        exists_events; simpl;
        (split; [eapply asked_inclusion; eauto | intuition discriminate]).
    + intros [= <- <-]. simpl. exists_events. simpl.
      split; [eapply asked_inclusion; eauto | intuition discriminate].
  - destruct (instanceof_SyntaxError e); intros [= <- <-]; simpl;
      exists_events; simpl;
      (split; [eapply asked_inclusion; eauto | intuition discriminate]).
Qed.

Lemma storeCode_ledger_dialogue_witness :
  exists events,
    trace (snd (Scenario.upload None omitted Scenario.store_log)) = events /\
    ledger_dialogue
      (Scenario.world Scenario.accepted (Scenario.included Scenario.store_log))
      (filter is_ledger_call events).
Proof.
  destruct (storeCode_ledger_dialogue node
              (Scenario.world Scenario.accepted (Scenario.included Scenario.store_log))
              Scenario.config Scenario.network "vault" None omitted Scenario.start
              (fst (Scenario.upload None omitted Scenario.store_log))
              (snd (Scenario.upload None omitted Scenario.store_log)))
    as (events & T & Hd & _).
  - apply surjective_pairing.
  - exists events. split; [|exact Hd].
    rewrite T. apply app_nil_r.
Defined.

(** X11.  In one call [instantiate] asks the ledger in a fixed order and
    each thing at most once: the signer for its sequence, one request to
    sign, one broadcast of the transaction the signer returned, and one
    wait for the hash the broadcast returned.  The signer is asked for its
    sequence only as the first of these, and exactly when it has to be:
    when a code id is recorded and the options carry no sequence or a
    falsy one (a zero or NaN). *)
Theorem instantiate_ledger_dialogue
    rt w config network contract msg options spinner st out st' :
  instantiate rt w config network contract msg options spinner st = (out, st') ->
  exists events,
    trace st' = events ++ trace st /\
    ledger_dialogue w (filter is_ledger_call events) /\
    (In SignerSequence events <->
     truthy (Refs.getCodeId (refs st) network contract) = true /\
     (optional_member options sequence = None \/
      exists n, optional_member options sequence = Some n /\
                (is_zero n = true \/ is_nan n = true))).
Proof.
  unfold instantiate.
  assert (Hsp : exists o, default_param (ora "dots") spinner = Some o)
    by (destruct spinner; simpl; eauto).
  destruct Hsp as [o ->].
  unfold bind at 1. unfold refs_getCodeId.
  destruct (truthy (Refs.getCodeId (refs st) network contract)) eqn:Hid.
  2:{ intros [= <- <-]. exists []. split; [reflexivity|].
      split; [constructor|]. simpl. intuition discriminate. }
  simpl. unfold bind at 1 2. unfold emit.
  assert (Hrest : forall first n,
            first = [] \/ first = [SignerSequence] ->
            forall s,
            bind (signer_createAndSignTx w
                    (instantiate_tx_options w
                       (Refs.getCodeId (refs st) network contract) msg options n))
                 (instantiate_submit rt w config network contract (Some o)) s
            = (out, st') ->
            exists added,
              trace st' = added ++ trace s /\
              ledger_dialogue w (filter is_ledger_call added ++ first) /\
              ~ In SignerSequence added).
  { intros first n Hfirst s.
    unfold bind at 1. unfold signer_createAndSignTx, bind at 1, emit, lift.
    destruct (createAndSignTx w _) as [tx|] eqn:Hsig.
    2:{ intros [= <- <-]. simpl. exists_events. simpl.
        split; [eapply asked_signature; eauto | intuition discriminate]. }
    unfold instantiate_submit, lcd_broadcastSync, wait_for_inclusion.
    unfold bind at 1 2 3 4. unfold emit, lift. simpl.
    destruct (broadcastSync w tx) as [result|] eqn:Hb.
    2:{ intros [= <- <-]. simpl. exists_events. simpl.
        split; [eapply asked_broadcast; eauto | intuition discriminate]. }
    destruct (waitForInclusionInBlock w _) as [res|] eqn:Hw.
    2:{ intros [= <- <-]. simpl. exists_events. simpl.
        split; [eapply asked_inclusion; eauto | intuition discriminate]. }
    unfold bind at 1. unfold instantiate_parse, try_catch, lift.
    destruct res as [info|]; simpl.
    - unfold json_parse.
      destruct (JSON_parse rt (ti_raw_log info)) as [m|log]; simpl.
      + intros [= <- <-]. simpl. exists_events. simpl.
        split; [eapply asked_inclusion; eauto | intuition discriminate].
      + unfold bind, emit, lift, refs_setAddress, refs_saveRefs, ret. simpl.
        destruct (extract_contract_address rt log);
          intros [= <- <-]; simpl; exists_events; simpl;
          (split; [eapply asked_inclusion; eauto | intuition discriminate]).
    - intros [= <- <-]. simpl. exists_events. simpl.
      split; [eapply asked_inclusion; eauto | intuition discriminate]. }
  assert (Hasked : forall added text,
            In SignerSequence (added ++ [SignerSequence; SpinnerStart o text]))
    by (intros; apply in_or_app; right; simpl; auto).
  unfold manual_sequence, signer_sequence_call.
  destruct (optional_member options sequence) as [n|] eqn:Hgiven;
    [destruct (number_truthy n) eqn:Hn|].
  - unfold ret. intros H.
    destruct (Hrest [] n (or_introl eq_refl) _ H) as (added & T & Hd & Hno).
    simpl in T. eexists (added ++ [SpinnerStart o _]).
    rewrite <- app_assoc. split; [exact T|].
    split; [rewrite filter_app; simpl; rewrite app_nil_r in *; exact Hd|].
    apply number_truthy_cases in Hn as [Hz Hnan].
    split.
    + intros Hin. apply in_app_or in Hin as [Hin | [[=] | []]]. tauto.
    + intros [_ [[=] | (n' & [= <-] & [Hc | Hc])]]; congruence.
  - assert (Hfalsy : is_zero n = true \/ is_nan n = true).
    { unfold number_truthy in Hn.
      destruct (is_zero n), (is_nan n); auto; discriminate. }
    unfold bind at 2. unfold emit, lift.
    destruct (signer_sequence w) as [k|e].
    + intros H.
      destruct (Hrest [SignerSequence] k (or_intror eq_refl) _ H)
        as (added & T & Hd & _).
      simpl in T. eexists (added ++ [SignerSequence; SpinnerStart o _]).
      rewrite <- app_assoc. split; [exact T|].
      split; [rewrite filter_app; exact Hd|].
      split; [eauto | intros _; apply Hasked].
    + intros [= <- <-]. simpl. exists_events. simpl.
      split; [constructor|]. split; [eauto | auto].
  - unfold bind at 2. unfold emit, lift.
    destruct (signer_sequence w) as [k|e].
    + intros H.
      destruct (Hrest [SignerSequence] k (or_intror eq_refl) _ H)
        as (added & T & Hd & _).
      simpl in T. eexists (added ++ [SignerSequence; SpinnerStart o _]).
      rewrite <- app_assoc. split; [exact T|].
      split; [rewrite filter_app; exact Hd|].
      split; [auto | intros _; apply Hasked].
    + intros [= <- <-]. simpl. exists_events. simpl.
      split; [constructor|]. split; [auto | auto].
Qed.

Lemma instantiate_ledger_dialogue_witness :
  exists events,
    trace (snd (Scenario.create Scenario.accepted None Scenario.instantiate_log))
    = events /\
    ledger_dialogue
      (Scenario.world Scenario.accepted (Scenario.included Scenario.instantiate_log))
      (filter is_ledger_call events).
Proof.
  destruct (instantiate_ledger_dialogue node
              (Scenario.world Scenario.accepted
                 (Scenario.included Scenario.instantiate_log))
              Scenario.config Scenario.network "vault"
              (VObj [("owner", VStr "x")]) None omitted Scenario.uploaded
              (fst (Scenario.create Scenario.accepted None Scenario.instantiate_log))
              (snd (Scenario.create Scenario.accepted None Scenario.instantiate_log)))
    as (events & T & Hd & _).
  - apply surjective_pairing.
  - exists events. split; [|exact Hd].
    rewrite T. apply app_nil_r.
Defined.

(** ** The name of the bytecode file *)



